(** * gcs_service: the hero-banner image adapter over Google Cloud Storage

    A shallow embedding of [gcs_service.py].  The module keeps two globals
    ([_storage_client], [_bucket]), reads two configuration strings from the
    environment at import time, and offers [init_gcs_client],
    [upload_hero_image], [delete_hero_image] and [get_public_url].

    Layout of the development:
    - [Py]       the pieces of the Python standard library the module calls
                 ([str.lower], [os.path.splitext], [uuid.uuid4().hex]);
    - [Sdk]      the handles of the storage SDK and the behaviour of the
                 provider during one call, given as an oracle;
    - [Eff]      the effect monad: globals, raised exceptions, trace;
    - the four operations, written statement by statement after the source;
    - the properties. *)

From Stdlib Require Import ZArith String Ascii List Bool Lia.
From Stdlib.Strings Require Byte.
Import ListNotations.

#[local] Open Scope string_scope.
#[local] Open Scope Z_scope.

(* ------------------------------------------------------------------ *)
(** ** Python standard library *)
(* ------------------------------------------------------------------ *)

(** A Python [str] is modelled by [string]: a sequence of characters whose
    code points are below 256.  [bytes] are [list Byte.byte]. *)
Module Py.

Definition code (c : ascii) : Z := Z.of_N (N_of_ascii c).
Definition chr (z : Z) : ascii := ascii_of_N (Z.to_N z).

(** [str.lower] on one character: A-Z, and the upper-case letters of the
    Latin-1 block (U+00C0-U+00DE but the multiplication sign U+00D7). *)
Definition lower_char (c : ascii) : ascii :=
  let n := code c in
  if ((65 <=? n) && (n <=? 90))
     || ((192 <=? n) && (n <=? 222) && negb (n =? 215))
  then chr (n + 32) else c.

Fixpoint lower (s : string) : string :=
  match s with
  | EmptyString => EmptyString
  | String c s' => String (lower_char c) (lower s')
  end.

(** [s.rfind(c)] for a one-character [c]: the highest index holding [c],
    or -1. *)
Fixpoint rfind_from (c : ascii) (s : string) (i last : Z) : Z :=
  match s with
  | EmptyString => last
  | String a s' => rfind_from c s' (i + 1) (if Ascii.eqb a c then i else last)
  end.

Definition rfind (s : string) (c : ascii) : Z := rfind_from c s 0 (-1).

(** Slices [s[:i]], [s[i:]] and [s[i:i+1]] for [0 <= i]. *)
Definition slice_to (s : string) (i : Z) : string :=
  substring 0 (Z.to_nat i) s.
Definition slice_from (s : string) (i : Z) : string :=
  substring (Z.to_nat i) (String.length s - Z.to_nat i) s.
Definition slice1 (s : string) (i : Z) : string :=
  substring (Z.to_nat i) 1 s.

(** The loop of [genericpath._splitext] that skips the leading dots of the
    last path component; [n] counts the iterations that are left
    ([dotIndex - filenameIndex]). *)
Fixpoint skip_leading_dots (p : string) (extsep : ascii) (dotIndex : Z)
         (n : nat) (filenameIndex : Z) : string * string :=
  match n with
  | O => (p, slice_to p 0)
  | S n' =>
      if negb (String.eqb (slice1 p filenameIndex) (String extsep EmptyString))
      then (slice_to p dotIndex, slice_from p dotIndex)
      else skip_leading_dots p extsep dotIndex n' (filenameIndex + 1)
  end.

(** [genericpath._splitext(p, sep, altsep, extsep)]. *)
Definition _splitext (p : string) (sep : ascii) (altsep : option ascii)
           (extsep : ascii) : string * string :=
  let sepIndex := rfind p sep in
  let sepIndex :=
    match altsep with
    | Some a => Z.max sepIndex (rfind p a)
    | None => sepIndex
    end in
  let dotIndex := rfind p extsep in
  if sepIndex <? dotIndex
  then skip_leading_dots p extsep dotIndex
         (Z.to_nat (dotIndex - (sepIndex + 1))) (sepIndex + 1)
  else (p, slice_to p 0).

(** [os.path.splitext] of [posixpath]: separator "/", no alternative
    separator, extension separator ".". *)
Definition splitext (p : string) : string * string :=
  _splitext p "/"%char None "."%char.

(** *** Hexadecimal formatting *)

Definition hex_digit (d : Z) : ascii :=
  match String.get (Z.to_nat d) "0123456789abcdef" with
  | Some c => c
  | None => "0"%char
  end.

Definition is_hex_digit (c : ascii) : bool :=
  let n := code c in
  ((48 <=? n) && (n <=? 57)) || ((97 <=? n) && (n <=? 102)).

Fixpoint all_chars (f : ascii -> bool) (s : string) : bool :=
  match s with
  | EmptyString => true
  | String c s' => f c && all_chars f s'
  end.

(** The digits of [n >= 0] in base 16, most significant first, in front of
    [acc]; [fuel] bounds the number of digits. *)
Fixpoint to_hex (fuel : nat) (n : Z) (acc : string) : string :=
  match fuel with
  | O => acc
  | S f =>
      let acc' := String (hex_digit (n mod 16)) acc in
      if n / 16 =? 0 then acc' else to_hex f (n / 16) acc'
  end.

(** ['%x' % n] for [0 <= n]. *)
Definition format_x (n : Z) : string :=
  to_hex (S (Z.to_nat (Z.log2 n))) n "".

Fixpoint repeat_char (c : ascii) (n : nat) : string :=
  match n with
  | O => EmptyString
  | S n' => String c (repeat_char c n')
  end.

(** Zero padding on the left up to [width] characters. *)
Definition zfill (width : nat) (s : string) : string :=
  repeat_char "0"%char (width - String.length s) ++ s.

(** ['%032x' % n]. *)
Definition format_032x (n : Z) : string := zfill 32 (format_x n).

(** *** uuid *)

Definition byte_val (b : Byte.byte) : Z := Z.of_N (Byte.to_N b).

(** [int.from_bytes(bs)], big endian. *)
Definition int_from_bytes (bs : list Byte.byte) : Z :=
  fold_left (fun acc b => acc * 256 + byte_val b) bs 0.

(** [UUID(bytes=bs, version=v).int]: the variant and version bits are
    forced, the rest is taken from [bs]. *)
Definition UUID_int (bs : list Byte.byte) (version : Z) : Z :=
  let int := int_from_bytes bs in
  let int := Z.land int (Z.lnot (Z.shiftl 0xc000 48)) in
  let int := Z.lor int (Z.shiftl 0x8000 48) in
  let int := Z.land int (Z.lnot (Z.shiftl 0xf000 64)) in
  let int := Z.lor int (Z.shiftl version 76) in
  int.

(** [uuid.uuid4().hex], given the 16 bytes [os.urandom(16)] returned. *)
Definition uuid4_hex (random16 : list Byte.byte) : string :=
  format_032x (UUID_int random16 4).

(** *** urllib.parse.quote *)

(** UTF-8 encoding of a character (code point below 256). *)
Definition utf8_char (c : ascii) : list Z :=
  let n := code c in
  if n <? 128 then [n]
  else [Z.lor 0xC0 (Z.shiftr n 6); Z.lor 0x80 (Z.land n 0x3F)].

Fixpoint utf8 (s : string) : list Z :=
  match s with
  | EmptyString => []
  | String c s' => utf8_char c ++ utf8 s'
  end.

Definition always_safe (b : Z) : bool :=
  ((65 <=? b) && (b <=? 90)) || ((97 <=? b) && (b <=? 122))
  || ((48 <=? b) && (b <=? 57))
  || (b =? 95) || (b =? 46) || (b =? 45) || (b =? 126).

Definition upper_hex_digit (d : Z) : ascii :=
  match String.get (Z.to_nat d) "0123456789ABCDEF" with
  | Some c => c
  | None => "0"%char
  end.

(** One byte of [quote_from_bytes]: kept when safe, ['%{:02X}'] otherwise. *)
Definition quote_byte (safe : Z -> bool) (b : Z) : string :=
  if always_safe b || safe b
  then String (chr b) EmptyString
  else String "%"%char
         (String (upper_hex_digit (b / 16))
            (String (upper_hex_digit (b mod 16)) EmptyString)).

Definition quote_bytes (safe : Z -> bool) (bs : list Z) : string :=
  fold_right (fun b acc => quote_byte safe b ++ acc) EmptyString bs.

End Py.

(* ------------------------------------------------------------------ *)
(** ** The storage SDK and the world around one call *)
(* ------------------------------------------------------------------ *)

Module Sdk.

(** What a call can raise.  The [except] clauses of the module tell
    three kinds of exception apart: [google.cloud.exceptions.NotFound];
    every other instance of [Exception]; and the exceptions that derive
    from [BaseException] without being an [Exception] ([KeyboardInterrupt],
    [SystemExit], [GeneratorExit], [asyncio.CancelledError]), which can
    come up while a call into the SDK is under way.  The string is what
    [str(e)] gives. *)
Inductive exn : Type :=
| NotFound (msg : string)
| OtherError (msg : string)
| NonException (msg : string).

Definition str (e : exn) : string :=
  match e with NotFound m => m | OtherError m => m | NonException m => m end.

(** The classes named by the [except] clauses of the module. *)
Inductive exn_class : Type := cls_NotFound | cls_Exception.

Definition isinstance (e : exn) (c : exn_class) : bool :=
  match c, e with
  | cls_Exception, NonException _ => false
  | cls_Exception, _ => true
  | cls_NotFound, NotFound _ => true
  | cls_NotFound, _ => false
  end.

Inductive result (A : Type) : Type :=
| Returns (a : A)
| Raises (e : exn).
Arguments Returns {A} a.
Arguments Raises {A} e.

(** Handles.  They are plain values: [Client.bucket] and [Bucket.blob]
    build them without talking to the provider. *)
Record Client : Type := { client_project : option string }.
Record Bucket : Type := { bucket_client : Client; bucket_name : string }.
Record Blob : Type := { blob_bucket : Bucket; blob_name : string }.

(** The behaviour of everything outside the module during one call of one
    of its functions: for each SDK call whether it raises (and for
    [Bucket.exists] what it answers), and the bytes [os.urandom] gives. *)
Record World : Type := {
  Client_new : option string -> option exn;
  Client_bucket : Client -> string -> option exn;
  Bucket_exists : Bucket -> result bool;
  Blob_upload_from_string : Blob -> list Byte.byte -> string -> option exn;
  Blob_delete : Blob -> option exn;
  urandom_byte : nat -> Byte.byte
}.

Definition os_urandom (w : World) (n : nat) : list Byte.byte :=
  map (urandom_byte w) (seq 0 n).

Definition safe_slash_tilde (b : Z) : bool := (b =? 47) || (b =? 126).

(** [_quote(value, safe=b"/~")]: the value is encoded to UTF-8, then
    percent-quoted. *)
Definition _quote (value : string) : string :=
  Py.quote_bytes safe_slash_tilde (Py.utf8 value).

Definition storage_base_url : string := "https://storage.googleapis.com".

(** Modelled from the spec: the [public_url] property of the SDK's [Blob]
    is not part of the repository.  The spec gives it as the provider's
    public-access pattern [https://storage.googleapis.com/{bucketName}/{objectName}]
    formatted with the name of the blob's bucket and the object name; the
    SDK percent-quotes the object name on the way (safe characters "/"
    and "~"), which is kept here. *)
Definition Blob_public_url (b : Blob) : string :=
  storage_base_url ++ "/" ++ bucket_name (blob_bucket b) ++ "/"
    ++ _quote (blob_name b).

Inductive log_level : Type := INFO | WARNING | ERROR.

(** What a call of the module does to the outside, in order. *)
Inductive event : Type :=
| E_Client (project : option string)
| E_bucket (c : Client) (name : string)
| E_exists (b : Bucket)
| E_blob (b : Bucket) (name : string)
| E_upload_from_string (b : Blob) (data : list Byte.byte) (content_type : string)
| E_delete (b : Blob)
| E_urandom (n : nat)
| E_log (level : log_level) (msg : string).

(** Calls into the SDK. *)
Definition is_provider_call (e : event) : bool :=
  match e with
  | E_Client _ | E_bucket _ _ | E_exists _ | E_blob _ _
  | E_upload_from_string _ _ _ | E_delete _ => true
  | E_urandom _ | E_log _ _ => false
  end.

(** Calls that go to the provider over the network. *)
Definition is_network_call (e : event) : bool :=
  match e with
  | E_exists _ | E_upload_from_string _ _ _ | E_delete _ => true
  | _ => false
  end.

Definition provider_calls (tr : list event) : list event :=
  filter is_provider_call tr.

Definition network_calls (tr : list event) : list event :=
  filter is_network_call tr.

End Sdk.
Import Sdk.

(* ------------------------------------------------------------------ *)
(** ** Module state and effects *)
(* ------------------------------------------------------------------ *)

(** The settings read from the environment when the module is imported. *)
Record Config : Type := {
  GCS_BUCKET_NAME : string;
  GCS_PROJECT_ID : string
}.

Definition HERO_IMAGES_FOLDER : string := "hero_images".

(** The two module globals. *)
Record Globals : Type := {
  _storage_client : option Client;
  _bucket : option Bucket
}.

(** The globals when the module has just been imported. *)
Definition initial_globals : Globals :=
  {| _storage_client := None; _bucket := None |}.

Module Eff.

(** A computation reads the world, threads the globals, and yields a
    value or a raised exception together with the events it caused. *)
Definition M (A : Type) : Type :=
  World -> Globals -> result A * Globals * list event.

Definition ret {A} (a : A) : M A := fun _ g => (Returns a, g, []).

Definition raise {A} (e : exn) : M A := fun _ g => (Raises e, g, []).

Definition bind {A B} (m : M A) (k : A -> M B) : M B :=
  fun w g =>
    match m w g with
    | (Returns a, g1, t1) =>
        let '(r, g2, t2) := k a w g1 in (r, g2, (t1 ++ t2)%list)
    | (Raises e, g1, t1) => (Raises e, g1, t1)
    end.

(** The first [except] clause whose class the exception belongs to. *)
Fixpoint find_clause {A} (e : exn) (clauses : list (exn_class * (exn -> M A)))
  : option (M A) :=
  match clauses with
  | [] => None
  | (c, h) :: rest => if isinstance e c then Some (h e) else find_clause e rest
  end.

(** [try: body  except C1: h1  except C2 as e: h2 ...]; an exception no
    clause takes goes on to the caller. *)
Definition try_except {A} (body : M A)
           (clauses : list (exn_class * (exn -> M A))) : M A :=
  fun w g =>
    match body w g with
    | (Returns a, g1, t1) => (Returns a, g1, t1)
    | (Raises e, g1, t1) =>
        match find_clause e clauses with
        | Some h => let '(r, g2, t2) := h w g1 in (r, g2, (t1 ++ t2)%list)
        | None => (Raises e, g1, t1)
        end
    end.

Definition emit (e : event) : M unit := fun _ g => (Returns tt, g, [e]).

Definition read_globals : M Globals := fun _ g => (Returns g, g, []).

Definition set_storage_client (c : option Client) : M unit :=
  fun _ g => (Returns tt, {| _storage_client := c; _bucket := _bucket g |}, []).

Definition set_bucket (b : option Bucket) : M unit :=
  fun _ g => (Returns tt, {| _storage_client := _storage_client g; _bucket := b |}, []).

(** An SDK call that returns nothing of interest. *)
Definition call (ev : event) (behaviour : World -> option exn) : M unit :=
  fun w g =>
    match behaviour w with
    | None => (Returns tt, g, [ev])
    | Some e => (Raises e, g, [ev])
    end.

(** An SDK call with an answer. *)
Definition ask {A} (ev : event) (behaviour : World -> result A) : M A :=
  fun w g => (behaviour w, g, [ev]).

(** Attribute access on a global that may be [None]. *)
Definition attr_of {A} (o : option A) (name : string) : M A :=
  match o with
  | Some a => ret a
  | None =>
      raise (OtherError ("'NoneType' object has no attribute '" ++ name ++ "'"))
  end.

Definition log (level : log_level) (msg : string) : M unit :=
  emit (E_log level msg).

Definition run {A} (m : M A) (w : World) (g : Globals)
  : result A * Globals * list event := m w g.

End Eff.
Import Eff.

Declare Scope eff_scope.
Delimit Scope eff_scope with eff.
Notation "x <- m ;; k" := (bind m (fun x => k))
  (at level 61, m at next level, right associativity) : eff_scope.
Notation "m ;; k" := (bind m (fun _ => k))
  (at level 61, right associativity) : eff_scope.
#[local] Open Scope eff_scope.

(* ------------------------------------------------------------------ *)
(** ** The operations of gcs_service.py *)
(* ------------------------------------------------------------------ *)

(** Truth value of a [str]: false exactly for the empty string. *)
Definition truthy (s : string) : bool := negb (String.eqb s "").

(** Truth value of an optional handle: handles are objects without
    [__bool__] or [__len__], so only [None] is false. *)
Definition is_set {A} (o : option A) : bool :=
  match o with Some _ => true | None => false end.

Definition ALLOWED_EXTENSIONS : list string := [".jpg"; ".jpeg"; ".png"; ".webp"].

(** [x in xs] on a list of strings. *)
Definition str_in (x : string) (xs : list string) : bool :=
  existsb (String.eqb x) xs.

Section Operations.

Variable cfg : Config.

(** [init_gcs_client()]. *)
Definition init_gcs_client : M bool :=
  if negb (truthy (GCS_BUCKET_NAME cfg)) then
    log WARNING "GCS_BUCKET_NAME not set, GCS service not available" ;;
    ret false
  else
    try_except
      (let project :=
         if truthy (GCS_PROJECT_ID cfg) then Some (GCS_PROJECT_ID cfg) else None in
       call (E_Client project) (fun w => Client_new w project) ;;
       set_storage_client (Some {| client_project := project |}) ;;
       g <- read_globals ;;
       client <- attr_of (_storage_client g) "bucket" ;;
       call (E_bucket client (GCS_BUCKET_NAME cfg))
            (fun w => Client_bucket w client (GCS_BUCKET_NAME cfg)) ;;
       set_bucket (Some {| bucket_client := client;
                           bucket_name := GCS_BUCKET_NAME cfg |}) ;;
       g <- read_globals ;;
       bucket <- attr_of (_bucket g) "exists" ;;
       exists_ <- ask (E_exists bucket) (fun w => Bucket_exists w bucket) ;;
       if negb exists_ then
         log ERROR ("GCS bucket '" ++ GCS_BUCKET_NAME cfg ++ "' does not exist") ;;
         ret false
       else
         log INFO ("GCS client initialized successfully for bucket: "
                     ++ GCS_BUCKET_NAME cfg) ;;
         ret true)
      [(cls_Exception,
        fun e =>
          log ERROR ("Failed to initialize GCS client: " ++ str e) ;;
          ret false)].

(** [get_gcs_client()]. *)
Definition get_gcs_client : M (option Client) :=
  g <- read_globals ;; ret (_storage_client g).

(** [get_bucket()]. *)
Definition get_bucket : M (option Bucket) :=
  g <- read_globals ;; ret (_bucket g).

(** [upload_hero_image(file_data, filename, content_type)]; the source
    gives [content_type] the default "image/jpeg". *)
Definition upload_hero_image (file_data : list Byte.byte) (filename : string)
           (content_type : string) : M (bool * string * string) :=
  g <- read_globals ;;
  if negb (is_set (_bucket g)) then
    log ERROR "GCS bucket not initialized" ;;
    ret (false, "", "")
  else
    try_except
      (let ext := Py.lower (snd (Py.splitext filename)) in
       let ext := if negb (str_in ext ALLOWED_EXTENSIONS) then ".jpg" else ext in
       random16 <- ask (E_urandom 16) (fun w => Returns (os_urandom w 16)) ;;
       let unique_name := Py.uuid4_hex random16 ++ ext in
       let object_name := HERO_IMAGES_FOLDER ++ "/" ++ unique_name in
       g <- read_globals ;;
       bucket <- attr_of (_bucket g) "blob" ;;
       emit (E_blob bucket object_name) ;;
       let blob := {| blob_bucket := bucket; blob_name := object_name |} in
       call (E_upload_from_string blob file_data content_type)
            (fun w => Blob_upload_from_string w blob file_data content_type) ;;
       let public_url := Blob_public_url blob in
       log INFO ("Uploaded hero image: " ++ object_name) ;;
       ret (true, object_name, public_url))
      [(cls_Exception,
        fun e =>
          log ERROR ("Failed to upload hero image: " ++ str e) ;;
          ret (false, "", ""))].

(** [delete_hero_image(object_name)]. *)
Definition delete_hero_image (object_name : string) : M bool :=
  g <- read_globals ;;
  if negb (is_set (_bucket g)) then
    log ERROR "GCS bucket not initialized" ;;
    ret false
  else
    try_except
      (g <- read_globals ;;
       bucket <- attr_of (_bucket g) "blob" ;;
       emit (E_blob bucket object_name) ;;
       let blob := {| blob_bucket := bucket; blob_name := object_name |} in
       call (E_delete blob) (fun w => Blob_delete w blob) ;;
       log INFO ("Deleted hero image: " ++ object_name) ;;
       ret true)
      [(cls_NotFound,
        fun _ =>
          log WARNING ("Hero image not found in GCS: " ++ object_name) ;;
          ret true);
       (cls_Exception,
        fun e =>
          log ERROR ("Failed to delete hero image: " ++ str e) ;;
          ret false)].

(** [get_public_url(object_name)]. *)
Definition get_public_url (object_name : string) : M string :=
  ret ("https://storage.googleapis.com/" ++ GCS_BUCKET_NAME cfg ++ "/"
         ++ object_name).

End Operations.

(* ------------------------------------------------------------------ *)
(** ** Notions the properties are stated with *)
(* ------------------------------------------------------------------ *)

Definition outcome_of {A} (x : result A * Globals * list event) : result A :=
  fst (fst x).
Definition globals_of {A} (x : result A * Globals * list event) : Globals :=
  snd (fst x).
Definition trace_of {A} (x : result A * Globals * list event) : list event :=
  snd x.

(** Lines 87-89 of the source: the extension an upload of [filename] gets. *)
Definition chosen_extension (filename : string) : string :=
  let ext := Py.lower (snd (Py.splitext filename)) in
  if negb (str_in ext ALLOWED_EXTENSIONS) then ".jpg" else ext.

(** Lines 91-92 of the source: the object name an upload of [filename]
    gets in world [w]. *)
Definition generated_object_name (w : World) (filename : string) : string :=
  HERO_IMAGES_FOLDER ++ "/" ++ (Py.uuid4_hex (os_urandom w 16) ++ chosen_extension filename).

(** The object names blobs were made for, in order. *)
Fixpoint blob_names (tr : list event) : list string :=
  match tr with
  | [] => []
  | E_blob _ name :: tr' => name :: blob_names tr'
  | _ :: tr' => blob_names tr'
  end.

(** [s.endswith(suffix)]. *)
Fixpoint endswith (s suffix : string) : bool :=
  String.eqb s suffix
  || match s with
     | EmptyString => false
     | String _ s' => endswith s' suffix
     end.

(** The naming convention [hero_images/{32 hex characters}{extension}],
    as a test on a name. *)
Definition matches_convention (name : string) : bool :=
  String.prefix "hero_images/" name
  && (String.length (substring 12 32 name) =? 32)%nat
  && Py.all_chars Py.is_hex_digit (substring 12 32 name)
  && str_in (substring 44 (String.length name - 44) name) ALLOWED_EXTENSIONS.

(** The URL pattern [https://storage.googleapis.com/{bucket}/{objectName}]. *)
Definition url_pattern (bucket object_name : string) : string :=
  "https://storage.googleapis.com/" ++ bucket ++ "/" ++ object_name.

(** One call of a function of the module, with the world it runs in. *)
Inductive invocation : Type :=
| Call_init (w : World)
| Call_get_gcs_client (w : World)
| Call_get_bucket (w : World)
| Call_upload (w : World) (file_data : list Byte.byte) (filename content_type : string)
| Call_delete (w : World) (object_name : string)
| Call_get_public_url (w : World) (object_name : string).

(** The globals after one call. *)
Definition exec (cfg : Config) (i : invocation) (g : Globals) : Globals :=
  match i with
  | Call_init w => globals_of (run (init_gcs_client cfg) w g)
  | Call_get_gcs_client w => globals_of (run get_gcs_client w g)
  | Call_get_bucket w => globals_of (run get_bucket w g)
  | Call_upload w d f ct => globals_of (run (upload_hero_image d f ct) w g)
  | Call_delete w n => globals_of (run (delete_hero_image n) w g)
  | Call_get_public_url w n => globals_of (run (get_public_url cfg n) w g)
  end.

Definition exec_all (cfg : Config) (calls : list invocation) (g : Globals) : Globals :=
  fold_left (fun g i => exec cfg i g) calls g.

(** The states the module can be in: those some sequence of calls leads to
    from the state at import. *)
Definition reachable (cfg : Config) (g : Globals) : Prop :=
  exists calls, g = exec_all cfg calls initial_globals.

(** The bucket handle, when there is one, is a handle on the configured
    bucket. *)
Definition bucket_configured (cfg : Config) (g : Globals) : Prop :=
  forall b, _bucket g = Some b -> bucket_name b = GCS_BUCKET_NAME cfg.

(** The arguments [init_gcs_client] builds its handles from. *)
Definition configured_project (cfg : Config) : option string :=
  if truthy (GCS_PROJECT_ID cfg) then Some (GCS_PROJECT_ID cfg) else None.
Definition configured_client (cfg : Config) : Client :=
  {| client_project := configured_project cfg |}.
Definition configured_bucket (cfg : Config) : Bucket :=
  {| bucket_client := configured_client cfg; bucket_name := GCS_BUCKET_NAME cfg |}.

(** Characters [_quote] leaves alone: ASCII letters, digits, and the
    marks "_", ".", "-", "~", "/". *)
Definition plain_char (c : ascii) : bool :=
  let n := Py.code c in
  (n <? 128) && (Py.always_safe n || safe_slash_tilde n).

(** The number a string of hexadecimal digits writes, for checking the
    formatting functions against it. *)
Definition digit_val (c : ascii) : Z :=
  let n := Py.code c in
  if (48 <=? n) && (n <=? 57) then n - 48 else n - 87.

Fixpoint hex_val_from (acc : Z) (s : string) : Z :=
  match s with
  | EmptyString => acc
  | String c s' => hex_val_from (acc * 16 + digit_val c) s'
  end.

Definition hex_val (s : string) : Z := hex_val_from 0 s.

(** [c in s] for a character. *)
Fixpoint contains (c : ascii) (s : string) : bool :=
  match s with
  | EmptyString => false
  | String a s' => Ascii.eqb a c || contains c s'
  end.

(** Sample data for the closed instances below. *)
Definition sample_config : Config :=
  {| GCS_BUCKET_NAME := "my-bucket"; GCS_PROJECT_ID := "" |}.

Definition sample_byte (i : nat) : Byte.byte :=
  match Byte.of_nat (i * 17) with Some b => b | None => Byte.x00 end.

(** A provider where everything succeeds. *)
Definition world_ok : World :=
  {| Client_new := fun _ => None;
     Client_bucket := fun _ _ => None;
     Bucket_exists := fun _ => Returns true;
     Blob_upload_from_string := fun _ _ _ => None;
     Blob_delete := fun _ => None;
     urandom_byte := sample_byte |}.

(** A provider that has neither the bucket nor any object. *)
Definition world_absent : World :=
  {| Client_new := fun _ => None;
     Client_bucket := fun _ _ => None;
     Bucket_exists := fun _ => Returns false;
     Blob_upload_from_string := fun _ _ _ => Some (NotFound "404 bucket");
     Blob_delete := fun _ => Some (NotFound "404 object");
     urandom_byte := sample_byte |}.

(** A provider that cannot be reached. *)
Definition world_down : World :=
  {| Client_new := fun _ => Some (OtherError "no credentials");
     Client_bucket := fun _ _ => Some (OtherError "bad name");
     Bucket_exists := fun _ => Raises (OtherError "503");
     Blob_upload_from_string := fun _ _ _ => Some (OtherError "503");
     Blob_delete := fun _ => Some (OtherError "503");
     urandom_byte := sample_byte |}.

(** A provider whose calls are all interrupted from the keyboard. *)
Definition world_interrupted : World :=
  {| Client_new := fun _ => Some (NonException "KeyboardInterrupt");
     Client_bucket := fun _ _ => Some (NonException "KeyboardInterrupt");
     Bucket_exists := fun _ => Raises (NonException "KeyboardInterrupt");
     Blob_upload_from_string := fun _ _ _ => Some (NonException "KeyboardInterrupt");
     Blob_delete := fun _ => Some (NonException "KeyboardInterrupt");
     urandom_byte := sample_byte |}.

(** A configuration without a bucket name. *)
Definition unconfigured : Config :=
  {| GCS_BUCKET_NAME := ""; GCS_PROJECT_ID := "my-project" |}.

Definition sample_client : Client := {| client_project := None |}.
Definition sample_bucket : Bucket :=
  {| bucket_client := sample_client; bucket_name := "my-bucket" |}.
Definition globals_ready : Globals :=
  {| _storage_client := Some sample_client; _bucket := Some sample_bucket |}.

(** What a [try] whose last clause is [except Exception], returning
    [failure], makes of an exception raised in its body and taken by no
    earlier clause: an instance of [Exception] gives [failure], anything
    else goes on to the caller. *)
Definition caught {A : Type} (failure : A) (e : exn) : result A :=
  if isinstance e cls_Exception then Returns failure else Raises e.


(** Both globals, when set, are the handles [init_gcs_client] builds from
    the configuration, and the bucket is never set without the client. *)
Definition globals_configured (cfg : Config) (g : Globals) : Prop :=
  (forall c, _storage_client g = Some c -> c = configured_client cfg)
  /\ (forall b, _bucket g = Some b ->
                b = configured_bucket cfg
                /\ _storage_client g = Some (configured_client cfg)).

(** The integer [uuid.uuid4] starts from in world [w]. *)
Definition random_int (w : World) : Z := Py.int_from_bytes (os_urandom w 16).

(** The bit positions of a version-4 UUID that come from the random bytes:
    all 128 but the variant bits 62-63 and the version bits 76-79. *)
Definition is_random_bit (n : Z) : bool :=
  (0 <=? n) && (n <? 128)
  && negb ((n =? 62) || (n =? 63) || ((76 <=? n) && (n <=? 79))).

(** A provider like [world_ok] whose random source gives zero bytes. *)
Definition world_zero : World :=
  {| Client_new := fun _ => None;
     Client_bucket := fun _ _ => None;
     Bucket_exists := fun _ => Returns true;
     Blob_upload_from_string := fun _ _ _ => None;
     Blob_delete := fun _ => None;
     urandom_byte := fun _ => Byte.x00 |}.

(** Unfolds the effect combinators of a run. *)
Ltac run_eff :=
  cbv [run init_gcs_client upload_hero_image delete_hero_image get_public_url
       get_gcs_client get_bucket
       bind ret raise try_except find_clause isinstance emit read_globals
       set_storage_client set_bucket call ask attr_of log
       is_set negb app _bucket _storage_client].

(* ------------------------------------------------------------------ *)
(** ** What a call does, case by case *)
(* ------------------------------------------------------------------ *)

Lemma upload_run_unset w g d f ct :
  _bucket g = None ->
  run (upload_hero_image d f ct) w g
  = (Returns (false, "", ""), g, [E_log ERROR "GCS bucket not initialized"]).
Proof.
  destruct g as [c b]; simpl; intros ->. reflexivity.
Qed.

Lemma upload_run_set w g b d f ct :
  _bucket g = Some b ->
  run (upload_hero_image d f ct) w g
  = let name := generated_object_name w f in
    let blob := {| blob_bucket := b; blob_name := name |} in
    match Blob_upload_from_string w blob d ct with
    | None =>
        (Returns (true, name, Blob_public_url blob), g,
         [E_urandom 16; E_blob b name; E_upload_from_string blob d ct;
          E_log INFO ("Uploaded hero image: " ++ name)])
    | Some e =>
        if isinstance e cls_Exception
        then (Returns (false, "", ""), g,
              [E_urandom 16; E_blob b name; E_upload_from_string blob d ct;
               E_log ERROR ("Failed to upload hero image: " ++ str e)])
        else (Raises e, g,
              [E_urandom 16; E_blob b name; E_upload_from_string blob d ct])
    end.
Proof.
  destruct g as [c b']; simpl; intros ->.
  run_eff.
  change (HERO_IMAGES_FOLDER ++ "/" ++ (Py.uuid4_hex (os_urandom w 16) ++ _))
    with (generated_object_name w f).
  cbv zeta.
  destruct (Blob_upload_from_string w _ d ct) as [[m|m|m]|]; reflexivity.
Qed.

Lemma delete_run_unset w g n :
  _bucket g = None ->
  run (delete_hero_image n) w g
  = (Returns false, g, [E_log ERROR "GCS bucket not initialized"]).
Proof.
  destruct g as [c b]; simpl; intros ->. reflexivity.
Qed.

Lemma delete_run_set w g b n :
  _bucket g = Some b ->
  run (delete_hero_image n) w g
  = let blob := {| blob_bucket := b; blob_name := n |} in
    match Blob_delete w blob with
    | None =>
        (Returns true, g,
         [E_blob b n; E_delete blob; E_log INFO ("Deleted hero image: " ++ n)])
    | Some (NotFound m) =>
        (Returns true, g,
         [E_blob b n; E_delete blob;
          E_log WARNING ("Hero image not found in GCS: " ++ n)])
    | Some (OtherError m) =>
        (Returns false, g,
         [E_blob b n; E_delete blob;
          E_log ERROR ("Failed to delete hero image: " ++ m)])
    | Some (NonException m) =>
        (Raises (NonException m), g, [E_blob b n; E_delete blob])
    end.
Proof.
  destruct g as [c b']; simpl; intros ->.
  run_eff. cbv zeta.
  destruct (Blob_delete w _) as [[m|m|m]|]; reflexivity.
Qed.

Lemma init_run_empty cfg w g :
  GCS_BUCKET_NAME cfg = "" ->
  run (init_gcs_client cfg) w g
  = (Returns false, g,
     [E_log WARNING "GCS_BUCKET_NAME not set, GCS service not available"]).
Proof.
  intros H. unfold run, init_gcs_client. rewrite H. reflexivity.
Qed.

Lemma init_run_nonempty cfg w g :
  GCS_BUCKET_NAME cfg <> "" ->
  run (init_gcs_client cfg) w g
  = let name := GCS_BUCKET_NAME cfg in
    let project := configured_project cfg in
    let client := configured_client cfg in
    let bucket := configured_bucket cfg in
    let failed e g calls :=
      if isinstance e cls_Exception
      then (Returns false, g,
            calls ++ [E_log ERROR ("Failed to initialize GCS client: " ++ str e)])%list
      else (Raises e, g, calls) in
    match Client_new w project with
    | Some e => failed e g [E_Client project]
    | None =>
        match Client_bucket w client name with
        | Some e =>
            failed e {| _storage_client := Some client; _bucket := _bucket g |}
                   [E_Client project; E_bucket client name]
        | None =>
            let g' := {| _storage_client := Some client; _bucket := Some bucket |} in
            let calls := [E_Client project; E_bucket client name; E_exists bucket] in
            match Bucket_exists w bucket with
            | Raises e => failed e g' calls
            | Returns false =>
                (Returns false, g',
                 calls ++ [E_log ERROR ("GCS bucket '" ++ name ++ "' does not exist")])%list
            | Returns true =>
                (Returns true, g',
                 calls ++ [E_log INFO ("GCS client initialized successfully for bucket: "
                                         ++ name)])%list
            end
        end
    end.
Proof.
  intros H. apply String.eqb_neq in H.
  unfold run, init_gcs_client, truthy at 1. rewrite H.
  fold (configured_project cfg).
  run_eff. cbv zeta.
  fold (configured_client cfg). fold (configured_bucket cfg).
  destruct (Client_new w _) as [[m|m|m]|]; [reflexivity..|].
  destruct (Client_bucket w _ _) as [[m|m|m]|]; [reflexivity..|].
  destruct (Bucket_exists w _) as [[|]|[m|m|m]]; reflexivity.
Qed.

(** Splits on whether a bucket name is configured and rewrites the run of
    [init_gcs_client] accordingly. *)
Ltac init_cases cfg w g :=
  let E := fresh "E" in
  destruct (string_dec (GCS_BUCKET_NAME cfg) "") as [E|E];
  [ rewrite (init_run_empty cfg w g E)
  | rewrite (init_run_nonempty cfg w g E); cbv zeta ].

(* ------------------------------------------------------------------ *)
(** ** Facts about the library functions *)
(* ------------------------------------------------------------------ *)

Section StringFacts.

Lemma length_app (a b : string) :
  String.length (a ++ b) = (String.length a + String.length b)%nat.
Proof. induction a as [|c a IH]; simpl; [reflexivity | now rewrite IH]. Qed.

Lemma append_assoc (a b c : string) : (a ++ b) ++ c = a ++ (b ++ c).
Proof. induction a as [|x a IH]; simpl; [reflexivity | now rewrite IH]. Qed.

Lemma substring_all (s : string) : substring 0 (String.length s) s = s.
Proof. induction s as [|c s IH]; simpl; [reflexivity | now rewrite IH]. Qed.

Lemma substring_app_left (a b : string) :
  substring 0 (String.length a) (a ++ b) = a.
Proof.
  induction a as [|c a IH]; simpl.
  - destruct b; reflexivity.
  - now rewrite IH.
Qed.

Lemma substring_app_right (a b : string) (n : nat) :
  substring (String.length a) n (a ++ b) = substring 0 n b.
Proof. induction a as [|c a IH]; simpl; [reflexivity | exact IH]. Qed.

Lemma all_chars_app f (a b : string) :
  Py.all_chars f (a ++ b) = Py.all_chars f a && Py.all_chars f b.
Proof.
  induction a as [|c a IH]; simpl; [reflexivity|].
  now rewrite IH, andb_assoc.
Qed.

Lemma all_chars_repeat f c n :
  f c = true -> Py.all_chars f (Py.repeat_char c n) = true.
Proof. intros H. induction n; simpl; [reflexivity | now rewrite H]. Qed.

Lemma all_chars_impl (f g : ascii -> bool) (s : string) :
  (forall c, f c = true -> g c = true) ->
  Py.all_chars f s = true -> Py.all_chars g s = true.
Proof.
  intros Hfg. induction s as [|c s IH]; simpl; [reflexivity|].
  rewrite !andb_true_iff. intros [Hc Hs]. split; auto.
Qed.

Lemma length_repeat_char c n : String.length (Py.repeat_char c n) = n.
Proof. induction n; simpl; [reflexivity | now rewrite IHn]. Qed.

Lemma endswith_app (p suffix : string) : endswith (p ++ suffix) suffix = true.
Proof.
  induction p as [|c p IH]; simpl.
  - destruct suffix; simpl; [reflexivity|].
    now rewrite Ascii.eqb_refl, String.eqb_refl.
  - rewrite IH. apply orb_true_r.
Qed.

Lemma endswith_split (s suffix : string) :
  endswith s suffix = true -> exists p, s = p ++ suffix.
Proof.
  induction s as [|c s IH]; intros H.
  - destruct suffix; [now exists "" | discriminate H].
  - change (endswith (String c s) suffix)
      with (String.eqb (String c s) suffix || endswith s suffix) in H.
    apply orb_true_iff in H. destruct H as [H|H].
    + apply String.eqb_eq in H. exists "". now rewrite H.
    + destruct (IH H) as [p ->]. now exists (String c p).
Qed.

Lemma str_in_allowed (x : string) :
  str_in x ALLOWED_EXTENSIONS = true ->
  x = ".jpg" \/ x = ".jpeg" \/ x = ".png" \/ x = ".webp".
Proof.
  unfold str_in, ALLOWED_EXTENSIONS. cbn [existsb].
  rewrite !orb_true_iff, !String.eqb_eq.
  intros [H|[H|[H|[H|H]]]]; auto; discriminate.
Qed.

End StringFacts.

Section HexFacts.

Lemma hex_digit_is_hex d :
  0 <= d < 16 -> Py.is_hex_digit (Py.hex_digit d) = true.
Proof.
  intros H. unfold Py.hex_digit.
  assert (Hk : (Z.to_nat d < 16)%nat) by lia.
  remember (Z.to_nat d) as k eqn:E. clear E H.
  do 16 (destruct k as [|k]; [reflexivity|]). lia.
Qed.

Lemma to_hex_all_hex fuel : forall n acc,
  Py.all_chars Py.is_hex_digit acc = true ->
  Py.all_chars Py.is_hex_digit (Py.to_hex fuel n acc) = true.
Proof.
  induction fuel as [|fuel IH]; intros n acc Hacc; simpl; [exact Hacc|].
  assert (Hd : Py.is_hex_digit (Py.hex_digit (n mod 16)) = true)
    by (apply hex_digit_is_hex, Z.mod_pos_bound; lia).
  destruct (n / 16 =? 0).
  - simpl. now rewrite Hd.
  - apply IH. simpl. now rewrite Hd.
Qed.

(** A number below [16^k] is written with at most [k] digits. *)
Lemma to_hex_length fuel : forall n acc k,
  (1 <= k)%nat -> 0 <= n < 16 ^ Z.of_nat k ->
  (String.length (Py.to_hex fuel n acc) <= k + String.length acc)%nat.
Proof.
  induction fuel as [|fuel IH]; intros n acc k Hk Hn; simpl; [lia|].
  destruct (Z.eqb_spec (n / 16) 0) as [E|E]; simpl; [lia|].
  destruct k as [|[|k]]; [lia| |].
  - exfalso. apply E. apply Z.div_small. simpl in Hn. lia.
  - specialize (IH (n / 16) (String (Py.hex_digit (n mod 16)) acc) (S k)).
    simpl String.length in IH.
    assert (0 <= n / 16 < 16 ^ Z.of_nat (S k)).
    { split; [apply Z.div_pos; lia|].
      apply Z.div_lt_upper_bound; [lia|].
      replace (Z.of_nat (S (S k))) with (Z.of_nat (S k) + 1) in Hn by lia.
      rewrite Z.pow_add_r in Hn by lia. lia. }
    lia.
Qed.

Lemma format_032x_length n :
  0 <= n < 2 ^ 128 -> String.length (Py.format_032x n) = 32%nat.
Proof.
  intros Hn. unfold Py.format_032x, Py.zfill.
  assert (H : (String.length (Py.format_x n) <= 32)%nat).
  { unfold Py.format_x.
    pose proof (to_hex_length (S (Z.to_nat (Z.log2 n))) n "" 32) as H.
    simpl String.length in H. rewrite Nat.add_0_r in H.
    apply H; [lia|]. change (16 ^ Z.of_nat 32) with (2 ^ 128). exact Hn. }
  rewrite length_app, length_repeat_char. lia.
Qed.

Lemma format_032x_all_hex n :
  Py.all_chars Py.is_hex_digit (Py.format_032x n) = true.
Proof.
  unfold Py.format_032x, Py.zfill, Py.format_x.
  rewrite all_chars_app, all_chars_repeat by reflexivity.
  now rewrite to_hex_all_hex.
Qed.

End HexFacts.

Section UuidFacts.

Lemma byte_val_range b : 0 <= Py.byte_val b < 256.
Proof.
  unfold Py.byte_val. pose proof (Byte.to_N_bounded b). lia.
Qed.

Lemma fold_bytes_range bs : forall acc k,
  0 <= acc < 256 ^ Z.of_nat k ->
  0 <= fold_left (fun a b => a * 256 + Py.byte_val b) bs acc
    < 256 ^ Z.of_nat (k + List.length bs).
Proof.
  induction bs as [|b bs IH]; intros acc k Hacc; simpl.
  - now rewrite Nat.add_0_r.
  - replace (k + S (List.length bs))%nat with (S k + List.length bs)%nat by lia.
    apply IH. pose proof (byte_val_range b).
    rewrite Nat2Z.inj_succ, Z.pow_succ_r by lia. lia.
Qed.

Lemma int_from_bytes_range bs :
  List.length bs = 16%nat -> 0 <= Py.int_from_bytes bs < 2 ^ 128.
Proof.
  intros H. unfold Py.int_from_bytes.
  pose proof (fold_bytes_range bs 0 0) as R. rewrite H in R.
  change (256 ^ Z.of_nat (0 + 16)) with (2 ^ 128) in R.
  apply R. simpl. lia.
Qed.

(** Below [2^128] means: no bit set from position 128 on. *)
Lemma high_bits_clear x :
  0 <= x < 2 ^ 128 -> forall n, 128 <= n -> Z.testbit x n = false.
Proof.
  intros [H0 H1] n Hn.
  destruct (Z.eq_dec x 0) as [->|Hx]; [apply Z.testbit_0_l|].
  apply Z.bits_above_log2; [exact H0|].
  assert (Z.log2 x < 128) by (apply Z.log2_lt_pow2; lia). lia.
Qed.

Lemma below_of_high_bits_clear x :
  0 <= x -> (forall n, 128 <= n -> Z.testbit x n = false) -> x < 2 ^ 128.
Proof.
  intros H0 Hb.
  destruct (Z_lt_le_dec x (2 ^ 128)) as [H|H]; [exact H|exfalso].
  assert (Hpos : 0 < x) by lia.
  assert (Hl : 128 <= Z.log2 x) by (apply Z.log2_le_pow2; lia).
  pose proof (Z.bit_log2 x Hpos) as Ht.
  rewrite (Hb _ Hl) in Ht. discriminate.
Qed.

Lemma shifted_constant_high_bits c k n :
  0 <= c < 2 ^ 16 -> 0 <= k <= 112 -> 128 <= n ->
  Z.testbit (Z.shiftl c k) n = false.
Proof.
  intros Hc Hk Hn. rewrite Z.shiftl_spec by lia.
  destruct (Z.eq_dec c 0) as [->|Hx]; [apply Z.testbit_0_l|].
  apply Z.bits_above_log2; [lia|].
  assert (Z.log2 c < 16) by (apply Z.log2_lt_pow2; lia). lia.
Qed.

Lemma UUID_int_range bs :
  0 <= Py.int_from_bytes bs < 2 ^ 128 -> 0 <= Py.UUID_int bs 4 < 2 ^ 128.
Proof.
  intros H. unfold Py.UUID_int. cbv zeta.
  assert (N1 : 0 <= Z.land (Py.int_from_bytes bs) (Z.lnot (Z.shiftl 49152 48)))
    by (apply Z.land_nonneg; lia).
  assert (N2 : 0 <= Z.lor (Z.land (Py.int_from_bytes bs)
                             (Z.lnot (Z.shiftl 49152 48))) (Z.shiftl 32768 48))
    by (apply Z.lor_nonneg; split; [exact N1 | apply Z.shiftl_nonneg; lia]).
  assert (N3 : 0 <= Z.lor (Z.land (Z.lor (Z.land (Py.int_from_bytes bs)
                             (Z.lnot (Z.shiftl 49152 48))) (Z.shiftl 32768 48))
                             (Z.lnot (Z.shiftl 61440 64))) (Z.shiftl 4 76)).
  { apply Z.lor_nonneg. split; [|apply Z.shiftl_nonneg; lia].
    apply Z.land_nonneg. now left. }
  split; [exact N3|].
  apply below_of_high_bits_clear; [exact N3|].
  intros n Hn.
  rewrite Z.lor_spec, Z.land_spec, Z.lor_spec, Z.land_spec.
  rewrite (high_bits_clear _ H n Hn).
  rewrite !shifted_constant_high_bits by lia.
  reflexivity.
Qed.

Lemma length_os_urandom w n : List.length (os_urandom w n) = n.
Proof. unfold os_urandom. now rewrite length_map, length_seq. Qed.

Lemma uuid4_hex_length w : String.length (Py.uuid4_hex (os_urandom w 16)) = 32%nat.
Proof.
  unfold Py.uuid4_hex. apply format_032x_length, UUID_int_range.
  apply int_from_bytes_range, length_os_urandom.
Qed.

Lemma uuid4_hex_all_hex bs : Py.all_chars Py.is_hex_digit (Py.uuid4_hex bs) = true.
Proof. apply format_032x_all_hex. Qed.

End UuidFacts.

Section QuoteFacts.

Lemma chr_code c : Py.chr (Py.code c) = c.
Proof.
  unfold Py.chr, Py.code. rewrite N2Z.id. apply ascii_N_embedding.
Qed.

Lemma quote_plain s : Py.all_chars plain_char s = true -> _quote s = s.
Proof.
  unfold _quote. induction s as [|c s IH]; simpl; [reflexivity|].
  rewrite andb_true_iff. intros [Hc Hs].
  unfold plain_char in Hc. cbv zeta in Hc.
  apply andb_true_iff in Hc. destruct Hc as [Hlt Hsafe].
  unfold Py.utf8_char. cbv zeta. rewrite Hlt. simpl.
  unfold Py.quote_byte. rewrite Hsafe. simpl.
  rewrite chr_code. f_equal. apply IH, Hs.
Qed.

Lemma hex_digit_plain c : Py.is_hex_digit c = true -> plain_char c = true.
Proof.
  unfold Py.is_hex_digit, plain_char, Py.always_safe, safe_slash_tilde.
  cbv zeta. generalize (Py.code c). intros n H.
  apply orb_true_iff in H.
  destruct H as [H|H]; apply andb_true_iff in H; destruct H as [H1 H2];
    apply Z.leb_le in H1, H2;
    (replace (n <? 128) with true by (symmetry; apply Z.ltb_lt; lia)).
  - replace ((48 <=? n) && (n <=? 57)) with true
      by (symmetry; apply andb_true_iff; split; apply Z.leb_le; lia).
    repeat (rewrite ?orb_true_r; simpl). reflexivity.
  - replace ((97 <=? n) && (n <=? 122)) with true
      by (symmetry; apply andb_true_iff; split; apply Z.leb_le; lia).
    repeat (rewrite ?orb_true_r; simpl). reflexivity.
Qed.

Lemma allowed_extension_plain ext :
  str_in ext ALLOWED_EXTENSIONS = true -> Py.all_chars plain_char ext = true.
Proof.
  intros H. destruct (str_in_allowed ext H) as [->|[->|[->| ->]]]; reflexivity.
Qed.

End QuoteFacts.

Section NameFacts.

Lemma chosen_extension_allowed filename :
  str_in (chosen_extension filename) ALLOWED_EXTENSIONS = true.
Proof.
  unfold chosen_extension. cbv zeta.
  destruct (str_in (Py.lower (snd (Py.splitext filename))) ALLOWED_EXTENSIONS)
    eqn:E; cbn [negb]; [exact E | reflexivity].
Qed.

Lemma folder_prefix (rest : string) :
  HERO_IMAGES_FOLDER ++ "/" ++ rest = "hero_images/" ++ rest.
Proof. reflexivity. Qed.

(** The shape of a generated name. *)
Lemma generated_object_name_shape w filename :
  generated_object_name w filename
  = "hero_images/" ++ Py.uuid4_hex (os_urandom w 16) ++ chosen_extension filename.
Proof. unfold generated_object_name. apply folder_prefix. Qed.

Lemma convention_of_parts token ext :
  String.length token = 32%nat ->
  Py.all_chars Py.is_hex_digit token = true ->
  str_in ext ALLOWED_EXTENSIONS = true ->
  matches_convention ("hero_images/" ++ token ++ ext) = true.
Proof.
  intros Hlen Hhex Hext. unfold matches_convention.
  assert (Htok : substring 12 32 ("hero_images/" ++ token ++ ext) = token).
  { change (substring 12 32 ("hero_images/" ++ token ++ ext))
      with (substring 0 32 (token ++ ext)).
    rewrite <- Hlen. apply substring_app_left. }
  assert (Hrest : substring 44 (String.length ("hero_images/" ++ token ++ ext) - 44)
                    ("hero_images/" ++ token ++ ext) = ext).
  { rewrite !length_app.
    replace (String.length "hero_images/" + (String.length token + String.length ext) - 44)%nat
      with (String.length ext) by (simpl; lia).
    change (substring 44 (String.length ext) ("hero_images/" ++ token ++ ext))
      with (substring 32 (String.length ext) (token ++ ext)).
    rewrite <- Hlen at 1. rewrite substring_app_right. apply substring_all. }
  assert (Hpre : String.prefix "hero_images/" ("hero_images/" ++ token ++ ext) = true).
  { apply prefix_correct. apply substring_app_left. }
  rewrite Htok, Hrest, Hlen, Hhex, Hext, Hpre.
  reflexivity.
Qed.

Lemma generated_object_name_convention w filename :
  matches_convention (generated_object_name w filename) = true.
Proof.
  rewrite generated_object_name_shape.
  apply convention_of_parts.
  - apply uuid4_hex_length.
  - apply uuid4_hex_all_hex.
  - apply chosen_extension_allowed.
Qed.

Lemma plain_of_parts token ext :
  Py.all_chars Py.is_hex_digit token = true ->
  str_in ext ALLOWED_EXTENSIONS = true ->
  Py.all_chars plain_char ("hero_images/" ++ token ++ ext) = true.
Proof.
  intros Hhex Hext.
  rewrite !all_chars_app.
  rewrite (all_chars_impl _ _ _ hex_digit_plain Hhex).
  rewrite (allowed_extension_plain _ Hext).
  reflexivity.
Qed.

Lemma generated_object_name_plain w filename :
  Py.all_chars plain_char (generated_object_name w filename) = true.
Proof.
  rewrite generated_object_name_shape.
  apply plain_of_parts.
  - apply uuid4_hex_all_hex.
  - apply chosen_extension_allowed.
Qed.

(** The SDK's URL of a blob whose name needs no quoting is the plain
    pattern. *)
Lemma public_url_of_plain b name :
  Py.all_chars plain_char name = true ->
  Blob_public_url {| blob_bucket := b; blob_name := name |}
  = url_pattern (bucket_name b) name.
Proof.
  intros H. unfold Blob_public_url, url_pattern, storage_base_url.
  cbn [blob_name blob_bucket].
  rewrite (quote_plain _ H).
  reflexivity.
Qed.

Lemma public_url_of_generated b w filename :
  Blob_public_url {| blob_bucket := b; blob_name := generated_object_name w filename |}
  = url_pattern (bucket_name b) (generated_object_name w filename).
Proof. apply public_url_of_plain, generated_object_name_plain. Qed.

End NameFacts.

(* ------------------------------------------------------------------ *)
(** ** The library model on known values *)
(* ------------------------------------------------------------------ *)

Section ModelChecks.

Example splitext_upper : Py.splitext "photo.PNG" = ("photo", ".PNG").
Proof. reflexivity. Qed.

Example splitext_two_dots : Py.splitext "archive.tar.gz" = ("archive.tar", ".gz").
Proof. reflexivity. Qed.

Example splitext_dotfile : Py.splitext ".png" = (".png", "").
Proof. reflexivity. Qed.

Example splitext_dot_in_directory : Py.splitext "dir.png/file" = ("dir.png/file", "").
Proof. reflexivity. Qed.

Example splitext_hidden_with_extension :
  Py.splitext "x/.hidden.jpeg" = ("x/.hidden", ".jpeg").
Proof. reflexivity. Qed.

Example lower_mixed : Py.lower ".JPeG" = ".jpeg".
Proof. reflexivity. Qed.

Example format_032x_255 : Py.format_032x 255 = "000000000000000000000000000000ff".
Proof. vm_compute. reflexivity. Qed.

Example uuid4_hex_all_ones :
  Py.uuid4_hex (repeat Byte.xff 16) = "ffffffffffff4fffbfffffffffffffff".
Proof. vm_compute. reflexivity. Qed.

Example uuid4_hex_all_zeros :
  Py.uuid4_hex (repeat Byte.x00 16) = "00000000000040008000000000000000".
Proof. vm_compute. reflexivity. Qed.

Example quote_space_percent : _quote "hero_images/a b%.jpg" = "hero_images/a%20b%25.jpg".
Proof. vm_compute. reflexivity. Qed.

Example chosen_extension_png : chosen_extension "Photo.PNG" = ".png".
Proof. reflexivity. Qed.

Example chosen_extension_gif : chosen_extension "anim.gif" = ".jpg".
Proof. reflexivity. Qed.

Example chosen_extension_none : chosen_extension "README" = ".jpg".
Proof. reflexivity. Qed.

Example chosen_extension_dotfile : chosen_extension ".webp" = ".jpg".
Proof. reflexivity. Qed.

End ModelChecks.

Section HexValue.

Lemma hex_val_from_app acc (a b : string) :
  hex_val_from acc (a ++ b) = hex_val_from (hex_val_from acc a) b.
Proof.
  revert acc. induction a as [|c a IH]; intros acc; simpl; [reflexivity|].
  apply IH.
Qed.

Lemma digit_val_hex_digit d : 0 <= d < 16 -> digit_val (Py.hex_digit d) = d.
Proof.
  intros H.
  assert (Hk : (Z.to_nat d < 16)%nat) by lia.
  rewrite <- (Z2Nat.id d) at 2 by lia.
  unfold Py.hex_digit.
  remember (Z.to_nat d) as k eqn:E. clear E H.
  do 16 (destruct k as [|k]; [reflexivity|]). lia.
Qed.

Lemma to_hex_acc fuel : forall n acc,
  Py.to_hex fuel n acc = Py.to_hex fuel n "" ++ acc.
Proof.
  induction fuel as [|fuel IH]; intros n acc; simpl; [reflexivity|].
  destruct (n / 16 =? 0); [reflexivity|].
  rewrite (IH _ (String _ acc)), (IH _ (String _ "")).
  now rewrite append_assoc.
Qed.

(** With enough fuel the digits written are those of the number. *)
Lemma to_hex_value fuel : forall n,
  0 <= n < 16 ^ Z.of_nat fuel -> hex_val (Py.to_hex fuel n "") = n.
Proof.
  induction fuel as [|fuel IH]; intros n Hn.
  - simpl in Hn. assert (n = 0) by lia. subst n. reflexivity.
  - simpl Py.to_hex.
    pose proof (Z.mod_pos_bound n 16 ltac:(lia)) as Hm.
    pose proof (Z.div_mod n 16 ltac:(lia)) as Hdm.
    destruct (Z.eqb_spec (n / 16) 0) as [E|E].
    + unfold hex_val. simpl. rewrite digit_val_hex_digit by lia. lia.
    + rewrite to_hex_acc. unfold hex_val.
      rewrite hex_val_from_app. fold (hex_val (Py.to_hex fuel (n / 16) "")).
      rewrite IH.
      * simpl. rewrite digit_val_hex_digit by lia. lia.
      * split; [apply Z.div_pos; lia|].
        apply Z.div_lt_upper_bound; [lia|].
        rewrite Nat2Z.inj_succ, Z.pow_succ_r in Hn by lia. lia.
Qed.

(** The fuel [format_x] takes is enough. *)
Lemma format_x_value n : 0 <= n -> hex_val (Py.format_x n) = n.
Proof.
  intros Hn. unfold Py.format_x. apply to_hex_value.
  split; [exact Hn|].
  destruct (Z.eq_dec n 0) as [->|Hz]; [simpl; lia|].
  pose proof (Z.log2_nonneg n) as Hl.
  rewrite Nat2Z.inj_succ, Z2Nat.id by lia.
  pose proof (Z.log2_spec n ltac:(lia)) as [_ Hlt].
  assert (2 ^ Z.succ (Z.log2 n) <= 16 ^ Z.succ (Z.log2 n)).
  { apply Z.pow_le_mono_l. lia. }
  lia.
Qed.

End HexValue.

Section SplitextFacts.

Lemma rfind_from_app c (a b : string) : forall i last,
  Py.rfind_from c (a ++ b) i last
  = Py.rfind_from c b (i + Z.of_nat (String.length a)) (Py.rfind_from c a i last).
Proof.
  induction a as [|x a IH]; intros i last.
  - simpl. now rewrite Z.add_0_r.
  - cbn [append Py.rfind_from String.length]. rewrite IH. f_equal. lia.
Qed.

Lemma rfind_from_absent c (s : string) : forall i last,
  contains c s = false -> Py.rfind_from c s i last = last.
Proof.
  induction s as [|x s IH]; intros i last H; simpl in *; [reflexivity|].
  apply orb_false_iff in H. destruct H as [Hx Hs].
  rewrite Hx. now apply IH.
Qed.

Lemma substring_suffix (a b : string) :
  substring (String.length a) (String.length (a ++ b) - String.length a) (a ++ b)
  = b.
Proof.
  rewrite length_app.
  replace (String.length a + String.length b - String.length a)%nat
    with (String.length b) by lia.
  rewrite substring_app_right. apply substring_all.
Qed.

(** A plain file name: a stem that starts with a character other than "."
    and has neither "." nor "/" further on, then "." and an extension
    without "." and "/".  [os.path.splitext] cuts it at that dot. *)
Lemma splitext_plain (c : ascii) (stem ext : string) :
  c <> "."%char -> c <> "/"%char ->
  contains "."%char stem = false -> contains "/"%char stem = false ->
  contains "."%char ext = false -> contains "/"%char ext = false ->
  Py.splitext (String c stem ++ String "."%char ext)
  = (String c stem, String "."%char ext).
Proof.
  intros Hc1 Hc2 Hs1 Hs2 He1 He2.
  apply Ascii.eqb_neq in Hc1. apply Ascii.eqb_neq in Hc2.
  unfold Py.splitext, Py._splitext, Py.rfind.
  rewrite !rfind_from_app.
  assert (Hsep : Py.rfind_from "/"%char (String "."%char ext)
                   (0 + Z.of_nat (String.length (String c stem)))
                   (Py.rfind_from "/"%char (String c stem) 0 (-1)) = -1).
  { rewrite rfind_from_absent by (simpl; exact He2).
    apply rfind_from_absent. simpl. now rewrite Hc2. }
  assert (Hdot : Py.rfind_from "."%char (String "."%char ext)
                   (0 + Z.of_nat (String.length (String c stem)))
                   (Py.rfind_from "."%char (String c stem) 0 (-1))
                 = Z.of_nat (String.length (String c stem))).
  { cbn [Py.rfind_from]. rewrite Ascii.eqb_refl.
    now rewrite rfind_from_absent by exact He1. }
  rewrite Hsep, Hdot.
  replace (-1 <? Z.of_nat (String.length (String c stem))) with true
    by (symmetry; apply Z.ltb_lt; lia).
  replace (Z.to_nat (Z.of_nat (String.length (String c stem)) - (-1 + 1)))
    with (S (String.length stem)) by (simpl String.length; lia).
  cbn [Py.skip_leading_dots]. change (-1 + 1) with 0.
  assert (Hfirst : String.eqb (Py.slice1 (String c stem ++ String "."%char ext) 0)
                     (String "."%char EmptyString) = false).
  { unfold Py.slice1. simpl. destruct (stem ++ String "."%char ext);
      simpl; now rewrite Hc1. }
  rewrite Hfirst. cbn [negb].
  unfold Py.slice_to, Py.slice_from. rewrite Nat2Z.id.
  now rewrite substring_app_left, substring_suffix.
Qed.

End SplitextFacts.

(* ------------------------------------------------------------------ *)
(** ** The globals across calls *)
(* ------------------------------------------------------------------ *)

Section Frame.

Lemma upload_globals w g d f ct :
  globals_of (run (upload_hero_image d f ct) w g) = g.
Proof.
  destruct (_bucket g) as [b|] eqn:E.
  - rewrite (upload_run_set w g b d f ct E). cbv zeta.
    destruct (Blob_upload_from_string w _ d ct) as [[m|m|m]|]; reflexivity.
  - now rewrite (upload_run_unset w g d f ct E).
Qed.

Lemma delete_globals w g n :
  globals_of (run (delete_hero_image n) w g) = g.
Proof.
  destruct (_bucket g) as [b|] eqn:E.
  - rewrite (delete_run_set w g b n E). cbv zeta.
    destruct (Blob_delete w _) as [[m|m|m]|]; reflexivity.
  - now rewrite (delete_run_unset w g n E).
Qed.

Lemma init_bucket_after cfg w g :
  _bucket (globals_of (run (init_gcs_client cfg) w g)) = _bucket g
  \/ _bucket (globals_of (run (init_gcs_client cfg) w g))
     = Some (configured_bucket cfg).
Proof.
  destruct (string_dec (GCS_BUCKET_NAME cfg) "") as [E|E].
  - left. now rewrite (init_run_empty cfg w g E).
  - rewrite (init_run_nonempty cfg w g E). cbv zeta.
    destruct (Client_new w _) as [[m|m|m]|]; [now left..|].
    destruct (Client_bucket w _ _) as [[m|m|m]|]; [now left..|].
    destruct (Bucket_exists w _) as [[|]|[m|m|m]]; now right.
Qed.

Lemma exec_bucket_configured cfg i g :
  bucket_configured cfg g -> bucket_configured cfg (exec cfg i g).
Proof.
  intros Hg. destruct i as [w|w|w|w d f ct|w n|w n]; simpl exec.
  - intros b Hb. destruct (init_bucket_after cfg w g) as [E|E];
      rewrite E in Hb.
    + now apply Hg.
    + injection Hb as <-. reflexivity.
  - exact Hg.
  - exact Hg.
  - now rewrite upload_globals.
  - now rewrite delete_globals.
  - exact Hg.
Qed.

Lemma exec_all_bucket_configured cfg calls : forall g,
  bucket_configured cfg g -> bucket_configured cfg (exec_all cfg calls g).
Proof.
  induction calls as [|i calls IH]; intros g Hg; simpl; [exact Hg|].
  apply IH, exec_bucket_configured, Hg.
Qed.

(** Whatever was called before, a bucket handle in the globals is a
    handle on the configured bucket. *)
Lemma reachable_bucket_configured cfg g :
  reachable cfg g -> bucket_configured cfg g.
Proof.
  intros [calls ->]. apply exec_all_bucket_configured.
  intros b Hb. discriminate Hb.
Qed.

End Frame.

(* ------------------------------------------------------------------ *)
(** ** Properties *)
(* ------------------------------------------------------------------ *)

(** C1.  With the bucket global unset, [upload_hero_image] returns
    [(False, "", "")] and [delete_hero_image] returns [False], for all
    arguments and whatever the provider would do, and neither makes a call
    into the SDK. *)
Theorem unset_bucket_fails_without_provider_call
        (w : World) (g : Globals) (file_data : list Byte.byte)
        (filename content_type object_name : string) :
  _bucket g = None ->
  (outcome_of (run (upload_hero_image file_data filename content_type) w g)
     = Returns (false, "", "")
   /\ provider_calls
        (trace_of (run (upload_hero_image file_data filename content_type) w g))
      = [])
  /\ (outcome_of (run (delete_hero_image object_name) w g) = Returns false
      /\ provider_calls (trace_of (run (delete_hero_image object_name) w g)) = []).
Proof.
  intros H.
  rewrite (upload_run_unset w g file_data filename content_type H).
  rewrite (delete_run_unset w g object_name H).
  repeat split.
Qed.

Lemma unset_bucket_fails_without_provider_call_witness :
  _bucket initial_globals = None
  /\ outcome_of (run (upload_hero_image [] "photo.png" "image/png")
                     world_ok initial_globals)
     = Returns (false, "", "")
  /\ outcome_of (run (delete_hero_image "hero_images/x.png")
                     world_ok initial_globals)
     = Returns false.
Proof.
  split; [reflexivity|].
  pose proof (unset_bucket_fails_without_provider_call
                world_ok initial_globals [] "photo.png" "image/png"
                "hero_images/x.png" eq_refl) as [[Hu _] [Hd _]].
  split; [exact Hu | exact Hd].
Defined.

(** C2.  With the bucket set, an upload makes a blob for exactly one object
    name, and that name is "hero_images/", then a token of 32 hexadecimal
    characters, then the extension; every name the call returns with a
    success is that name. *)
Theorem generated_name_follows_convention
        (w : World) (g : Globals) (b : Bucket) (file_data : list Byte.byte)
        (filename content_type : string) :
  _bucket g = Some b ->
  exists token,
    String.length token = 32%nat
    /\ Py.all_chars Py.is_hex_digit token = true
    /\ blob_names
         (trace_of (run (upload_hero_image file_data filename content_type) w g))
       = ["hero_images/" ++ token ++ chosen_extension filename]
    /\ matches_convention ("hero_images/" ++ token ++ chosen_extension filename)
       = true
    /\ forall name url,
         outcome_of (run (upload_hero_image file_data filename content_type) w g)
         = Returns (true, name, url) ->
         name = "hero_images/" ++ token ++ chosen_extension filename.
Proof.
  intros H. exists (Py.uuid4_hex (os_urandom w 16)).
  rewrite (upload_run_set w g b file_data filename content_type H). cbv zeta.
  rewrite <- generated_object_name_shape.
  split; [apply uuid4_hex_length|].
  split; [apply uuid4_hex_all_hex|].
  split; [|split].
  - destruct (Blob_upload_from_string w _ file_data content_type) as [[m|m|m]|]; reflexivity.
  - apply generated_object_name_convention.
  - intros name url.
    destruct (Blob_upload_from_string w _ file_data content_type) as [[m|m|m]|];
      unfold outcome_of; simpl fst; intros E; try discriminate E.
    now injection E as <- _.
Qed.

Lemma generated_name_follows_convention_witness :
  _bucket globals_ready = Some sample_bucket
  /\ exists token,
       String.length token = 32%nat
       /\ blob_names
            (trace_of (run (upload_hero_image [] "Photo.PNG" "image/png")
                           world_ok globals_ready))
          = ["hero_images/" ++ token ++ ".png"].
Proof.
  split; [reflexivity|].
  destruct (generated_name_follows_convention
              world_ok globals_ready sample_bucket [] "Photo.PNG" "image/png"
              eq_refl) as [token [Hlen [_ [Hnames _]]]].
  exists token. split; [exact Hlen | exact Hnames].
Defined.

(** C3.  With the bucket set, the object name an upload generates ends with
    the extension of the file name in lower case when that is one of .jpg,
    .jpeg, .png, .webp, and with ".jpg" otherwise (another extension or
    none).  The extension of a file name is what [os.path.splitext] gives. *)
Theorem generated_name_extension
        (w : World) (g : Globals) (b : Bucket) (file_data : list Byte.byte)
        (filename content_type : string) :
  _bucket g = Some b ->
  exists name,
    blob_names
      (trace_of (run (upload_hero_image file_data filename content_type) w g))
    = [name]
    /\ (str_in (Py.lower (snd (Py.splitext filename))) ALLOWED_EXTENSIONS = true ->
        endswith name (Py.lower (snd (Py.splitext filename))) = true)
    /\ (str_in (Py.lower (snd (Py.splitext filename))) ALLOWED_EXTENSIONS = false ->
        endswith name ".jpg" = true).
Proof.
  intros H. exists (generated_object_name w filename).
  rewrite (upload_run_set w g b file_data filename content_type H). cbv zeta.
  split.
  - destruct (Blob_upload_from_string w _ file_data content_type) as [[m|m|m]|]; reflexivity.
  - unfold generated_object_name.
    rewrite <- !append_assoc.
    unfold chosen_extension. cbv zeta.
    split; intros E; rewrite E; cbn [negb]; apply endswith_app.
Qed.

Lemma generated_name_extension_witness :
  _bucket globals_ready = Some sample_bucket
  /\ str_in (Py.lower (snd (Py.splitext "Photo.PNG"))) ALLOWED_EXTENSIONS = true
  /\ exists name,
       blob_names
         (trace_of (run (upload_hero_image [] "Photo.PNG" "image/png")
                        world_ok globals_ready))
       = [name]
       /\ endswith name ".png" = true.
Proof.
  split; [reflexivity|]. split; [reflexivity|].
  destruct (generated_name_extension
              world_ok globals_ready sample_bucket [] "Photo.PNG" "image/png"
              eq_refl) as [name [Hnames [Hallowed _]]].
  exists name. split; [exact Hnames | exact (Hallowed eq_refl)].
Defined.

(** C4.  In every state the module can reach, when the bucket is set and the
    provider write raises nothing the upload returns [True], the generated
    object name, and the URL https://storage.googleapis.com/{bucket}/{name}
    of the configured bucket and that name; and whenever an upload returns
    [True], the name it returns follows the naming convention and the URL
    is that pattern. *)
Theorem upload_success_result
        (cfg : Config) (w : World) (g : Globals) (file_data : list Byte.byte)
        (filename content_type : string) :
  reachable cfg g ->
  (forall b,
      _bucket g = Some b ->
      Blob_upload_from_string w
        {| blob_bucket := b; blob_name := generated_object_name w filename |}
        file_data content_type = None ->
      outcome_of (run (upload_hero_image file_data filename content_type) w g)
      = Returns (true, generated_object_name w filename,
                 url_pattern (GCS_BUCKET_NAME cfg)
                             (generated_object_name w filename)))
  /\ (forall name url,
         outcome_of (run (upload_hero_image file_data filename content_type) w g)
         = Returns (true, name, url) ->
         matches_convention name = true
         /\ url = url_pattern (GCS_BUCKET_NAME cfg) name).
Proof.
  intros Hreach.
  pose proof (reachable_bucket_configured cfg g Hreach) as Hinv.
  split.
  - intros b Hb Hok.
    rewrite (upload_run_set w g b file_data filename content_type Hb).
    cbv zeta. rewrite Hok. unfold outcome_of. simpl fst.
    now rewrite public_url_of_generated, (Hinv b Hb).
  - intros name url.
    destruct (_bucket g) as [b|] eqn:Hb.
    + rewrite (upload_run_set w g b file_data filename content_type Hb).
      cbv zeta.
      destruct (Blob_upload_from_string w _ file_data content_type) as [[m|m|m]|];
        unfold outcome_of; simpl fst; intros E; try discriminate E.
      injection E as <- <-. split.
      * apply generated_object_name_convention.
      * now rewrite public_url_of_generated, (Hinv b Hb).
    + rewrite (upload_run_unset w g file_data filename content_type Hb).
      unfold outcome_of. simpl fst. intros E. discriminate E.
Qed.

Lemma upload_success_result_witness :
  reachable sample_config globals_ready
  /\ outcome_of (run (upload_hero_image [] "Photo.PNG" "image/png")
                     world_ok globals_ready)
     = Returns (true, generated_object_name world_ok "Photo.PNG",
                url_pattern "my-bucket"
                            (generated_object_name world_ok "Photo.PNG")).
Proof.
  assert (R : reachable sample_config globals_ready)
    by (exists [Call_init world_ok]; reflexivity).
  split; [exact R|].
  destruct (upload_success_result sample_config world_ok globals_ready []
              "Photo.PNG" "image/png" R) as [H _].
  exact (H sample_bucket eq_refl eq_refl).
Defined.

(** C5.  With the bucket set, [delete_hero_image] returns [True] when the
    provider delete succeeds, [True] when it raises [NotFound], and [False]
    when it raises any other instance of [Exception], the class its last
    clause names.  (What is not an instance of [Exception] passes both
    clauses.) *)
Theorem delete_three_outcomes
        (w : World) (g : Globals) (b : Bucket) (object_name : string) :
  _bucket g = Some b ->
  outcome_of (run (delete_hero_image object_name) w g)
  = match Blob_delete w {| blob_bucket := b; blob_name := object_name |} with
    | None => Returns true
    | Some (NotFound _) => Returns true
    | Some (OtherError _) => Returns false
    | Some (NonException m) => Raises (NonException m)
    end.
Proof.
  intros H. rewrite (delete_run_set w g b object_name H). cbv zeta.
  destruct (Blob_delete w _) as [[m|m|m]|]; reflexivity.
Qed.

Lemma delete_three_outcomes_witness :
  _bucket globals_ready = Some sample_bucket
  /\ outcome_of (run (delete_hero_image "hero_images/gone.jpg")
                     world_absent globals_ready)
     = Returns true.
Proof.
  split; [reflexivity|].
  exact (delete_three_outcomes world_absent globals_ready sample_bucket
           "hero_images/gone.jpg" eq_refl).
Defined.

(** C6.  With an empty configured bucket name, [init_gcs_client] returns
    [False], makes no call into the SDK (no client is constructed, nothing
    goes over the network), and leaves both globals as they were. *)
Theorem init_empty_bucket_name (cfg : Config) (w : World) (g : Globals) :
  GCS_BUCKET_NAME cfg = "" ->
  outcome_of (run (init_gcs_client cfg) w g) = Returns false
  /\ provider_calls (trace_of (run (init_gcs_client cfg) w g)) = []
  /\ globals_of (run (init_gcs_client cfg) w g) = g.
Proof.
  intros H. rewrite (init_run_empty cfg w g H). repeat split.
Qed.

Lemma init_empty_bucket_name_witness :
  GCS_BUCKET_NAME unconfigured = ""
  /\ outcome_of (run (init_gcs_client unconfigured) world_ok globals_ready)
     = Returns false
  /\ globals_of (run (init_gcs_client unconfigured) world_ok globals_ready)
     = globals_ready.
Proof.
  split; [reflexivity|].
  destruct (init_empty_bucket_name unconfigured world_ok globals_ready eq_refl)
    as [Ho [_ Hg]].
  split; [exact Ho | exact Hg].
Defined.

(** C7.  [get_public_url] returns "https://storage.googleapis.com/", the
    configured bucket name, "/" and the object name, in every state and
    world, with no event at all and the globals untouched; for bucket
    "my-bucket" and object "hero_images/abc.jpg" that is
    "https://storage.googleapis.com/my-bucket/hero_images/abc.jpg". *)
Theorem get_public_url_pure
        (cfg : Config) (w : World) (g : Globals) (object_name : string) :
  run (get_public_url cfg object_name) w g
  = (Returns ("https://storage.googleapis.com/" ++ GCS_BUCKET_NAME cfg ++ "/"
                ++ object_name), g, [])
  /\ run (get_public_url sample_config "hero_images/abc.jpg") w g
     = (Returns "https://storage.googleapis.com/my-bucket/hero_images/abc.jpg",
        g, []).
Proof.
  split; reflexivity.
Qed.

(** C8, as the claim states it, would make [delete_hero_image] return
    [False] for every exception the provider raises.  It does not: on
    [NotFound] the result is [True] (and what is not an instance of
    [Exception] is not caught at all). *)
Lemma delete_failure_value_for_every_exception_fails :
  ~ (forall (w : World) (g : Globals) (b : Bucket) (object_name : string)
            (e : exn),
        _bucket g = Some b ->
        Blob_delete w {| blob_bucket := b; blob_name := object_name |} = Some e ->
        outcome_of (run (delete_hero_image object_name) w g) = Returns false).
Proof.
  intros H.
  specialize (H world_absent globals_ready sample_bucket "hero_images/gone.jpg"
                (NotFound "404 object") eq_refl eq_refl).
  discriminate H.
Qed.

(** C8, amended.  No instance of [Exception] leaves [init_gcs_client],
    [upload_hero_image] or [delete_hero_image], whatever the arguments, the
    state and the provider do.  When a provider call raises one,
    [init_gcs_client] returns [False], [upload_hero_image] returns
    [(False, "", "")], and [delete_hero_image] returns [False] unless the
    exception is [NotFound], for which it returns [True].  An exception
    that is not an instance of [Exception] is taken by none of the clauses
    and goes on to the caller. *)
Theorem only_non_exceptions_escape
        (cfg : Config) (w : World) (g : Globals) (file_data : list Byte.byte)
        (filename content_type object_name : string) :
  ((forall e, outcome_of (run (init_gcs_client cfg) w g) = Raises e ->
              isinstance e cls_Exception = false)
   /\ (forall e,
          outcome_of (run (upload_hero_image file_data filename content_type) w g)
          = Raises e ->
          isinstance e cls_Exception = false)
   /\ (forall e, outcome_of (run (delete_hero_image object_name) w g) = Raises e ->
                 isinstance e cls_Exception = false))
  /\ (GCS_BUCKET_NAME cfg <> "" ->
      outcome_of (run (init_gcs_client cfg) w g)
      = match Client_new w (configured_project cfg) with
        | Some e => caught false e
        | None =>
            match Client_bucket w (configured_client cfg) (GCS_BUCKET_NAME cfg) with
            | Some e => caught false e
            | None =>
                match Bucket_exists w (configured_bucket cfg) with
                | Raises e => caught false e
                | Returns found => Returns found
                end
            end
        end)
  /\ (forall b e,
         _bucket g = Some b ->
         Blob_upload_from_string w
           {| blob_bucket := b; blob_name := generated_object_name w filename |}
           file_data content_type = Some e ->
         outcome_of (run (upload_hero_image file_data filename content_type) w g)
         = caught (false, "", "") e)
  /\ (forall b e,
         _bucket g = Some b ->
         Blob_delete w {| blob_bucket := b; blob_name := object_name |} = Some e ->
         outcome_of (run (delete_hero_image object_name) w g)
         = if isinstance e cls_NotFound then Returns true else caught false e).
Proof.
  split; [split; [|split]|split; [|split]].
  - init_cases cfg w g; [intros e H; discriminate H|].
    destruct (Client_new w _) as [[m|m|m]|];
      [intros e H; try discriminate H; now injection H as <- ..|].
    destruct (Client_bucket w _ _) as [[m|m|m]|];
      [intros e H; try discriminate H; now injection H as <- ..|].
    destruct (Bucket_exists w _) as [[|]|[m|m|m]];
      intros e H; try discriminate H; now injection H as <-.
  - destruct (_bucket g) as [b|] eqn:Hb.
    + rewrite (upload_run_set w g b file_data filename content_type Hb).
      cbv zeta.
      destruct (Blob_upload_from_string w _ file_data content_type) as [[m|m|m]|];
        intros e H; try discriminate H; now injection H as <-.
    + rewrite (upload_run_unset w g file_data filename content_type Hb).
      intros e H; discriminate H.
  - destruct (_bucket g) as [b|] eqn:Hb.
    + rewrite (delete_run_set w g b object_name Hb). cbv zeta.
      destruct (Blob_delete w _) as [[m|m|m]|];
        intros e H; try discriminate H; now injection H as <-.
    + rewrite (delete_run_unset w g object_name Hb).
      intros e H; discriminate H.
  - intros Hname. init_cases cfg w g; [contradiction|].
    destruct (Client_new w _) as [[m|m|m]|]; [reflexivity..|].
    destruct (Client_bucket w _ _) as [[m|m|m]|]; [reflexivity..|].
    destruct (Bucket_exists w _) as [[|]|[m|m|m]]; reflexivity.
  - intros b e Hb He.
    rewrite (upload_run_set w g b file_data filename content_type Hb).
    cbv zeta. rewrite He. destruct e; reflexivity.
  - intros b e Hb He.
    rewrite (delete_run_set w g b object_name Hb). cbv zeta. rewrite He.
    destruct e; reflexivity.
Qed.

Lemma only_non_exceptions_escape_witness :
  outcome_of (run (init_gcs_client sample_config) world_down initial_globals)
  = Returns false
  /\ outcome_of (run (upload_hero_image [] "a.webp" "image/webp")
                     world_down globals_ready)
     = Returns (false, "", "")
  /\ outcome_of (run (delete_hero_image "hero_images/a.webp")
                     world_down globals_ready)
     = Returns false
  /\ outcome_of (run (delete_hero_image "hero_images/a.webp")
                     world_interrupted globals_ready)
     = Raises (NonException "KeyboardInterrupt").
Proof.
  split; [|split; [|split]].
  - destruct (only_non_exceptions_escape sample_config world_down
                initial_globals [] "a.webp" "image/webp" "hero_images/a.webp")
      as [_ [H _]].
    exact (H ltac:(discriminate)).
  - destruct (only_non_exceptions_escape sample_config world_down globals_ready
                [] "a.webp" "image/webp" "hero_images/a.webp")
      as [_ [_ [H _]]].
    exact (H sample_bucket (OtherError "503") eq_refl eq_refl).
  - destruct (only_non_exceptions_escape sample_config world_down globals_ready
                [] "a.webp" "image/webp" "hero_images/a.webp")
      as [_ [_ [_ H]]].
    exact (H sample_bucket (OtherError "503") eq_refl eq_refl).
  - destruct (only_non_exceptions_escape sample_config world_interrupted
                globals_ready [] "a.webp" "image/webp" "hero_images/a.webp")
      as [_ [_ [_ H]]].
    exact (H sample_bucket (NonException "KeyboardInterrupt") eq_refl eq_refl).
Defined.

(** C9.  When [init_gcs_client] returns [False] because the existence check
    answers that the bucket is absent (nothing raised), both globals have
    been set all the same; a later [upload_hero_image] or
    [delete_hero_image] passes its check of the bucket global and calls the
    provider. *)
Theorem init_absent_bucket_leaves_state_set
        (cfg : Config) (w : World) (g : Globals) :
  GCS_BUCKET_NAME cfg <> "" ->
  Client_new w (configured_project cfg) = None ->
  Client_bucket w (configured_client cfg) (GCS_BUCKET_NAME cfg) = None ->
  Bucket_exists w (configured_bucket cfg) = Returns false ->
  outcome_of (run (init_gcs_client cfg) w g) = Returns false
  /\ globals_of (run (init_gcs_client cfg) w g)
     = {| _storage_client := Some (configured_client cfg);
          _bucket := Some (configured_bucket cfg) |}
  /\ forall (w' : World) (file_data : list Byte.byte)
            (filename content_type object_name : string),
       In (E_upload_from_string
             {| blob_bucket := configured_bucket cfg;
                blob_name := generated_object_name w' filename |}
             file_data content_type)
          (network_calls
             (trace_of (run (upload_hero_image file_data filename content_type) w'
                            (globals_of (run (init_gcs_client cfg) w g)))))
       /\ In (E_delete {| blob_bucket := configured_bucket cfg;
                          blob_name := object_name |})
             (network_calls
                (trace_of (run (delete_hero_image object_name) w'
                               (globals_of (run (init_gcs_client cfg) w g))))).
Proof.
  intros Hname Hclient Hbucket Hexists.
  rewrite (init_run_nonempty cfg w g Hname). cbv zeta.
  rewrite Hclient, Hbucket, Hexists.
  split; [reflexivity|]. split; [reflexivity|].
  intros w' file_data filename content_type object_name.
  cbv [globals_of fst snd].
  set (g' := {| _storage_client := Some (configured_client cfg);
                _bucket := Some (configured_bucket cfg) |}).
  split.
  - rewrite (upload_run_set w' g' (configured_bucket cfg) file_data filename
               content_type eq_refl).
    cbv zeta.
    destruct (Blob_upload_from_string w' _ file_data content_type) as [[m|m|m]|];
      cbv [trace_of snd network_calls filter is_network_call]; simpl In; auto.
  - rewrite (delete_run_set w' g' (configured_bucket cfg) object_name eq_refl).
    cbv zeta.
    destruct (Blob_delete w' _) as [[m|m|m]|];
      cbv [trace_of snd network_calls filter is_network_call]; simpl In; auto.
Qed.

Lemma init_absent_bucket_leaves_state_set_witness :
  GCS_BUCKET_NAME sample_config <> ""
  /\ outcome_of (run (init_gcs_client sample_config) world_absent initial_globals)
     = Returns false
  /\ globals_of (run (init_gcs_client sample_config) world_absent initial_globals)
     = globals_ready.
Proof.
  assert (N : GCS_BUCKET_NAME sample_config <> "") by discriminate.
  split; [exact N|].
  destruct (init_absent_bucket_leaves_state_set sample_config world_absent
              initial_globals N eq_refl eq_refl eq_refl) as [Ho [Hg _]].
  split; [exact Ho | exact Hg].
Defined.

(** C10.  [upload_hero_image] and [delete_hero_image] leave both globals as
    they found them, on success and on failure alike; so do the getters and
    [get_public_url].  Of the functions of the module only
    [init_gcs_client] assigns them. *)
Theorem upload_delete_leave_globals
        (cfg : Config) (w : World) (g : Globals) (file_data : list Byte.byte)
        (filename content_type object_name : string) :
  globals_of (run (upload_hero_image file_data filename content_type) w g) = g
  /\ globals_of (run (delete_hero_image object_name) w g) = g
  /\ globals_of (run get_gcs_client w g) = g
  /\ globals_of (run get_bucket w g) = g
  /\ globals_of (run (get_public_url cfg object_name) w g) = g.
Proof.
  split; [apply upload_globals|].
  split; [apply delete_globals|].
  repeat split.
Qed.

(* ------------------------------------------------------------------ *)
(** ** Further properties of the module *)
(* ------------------------------------------------------------------ *)

Section Initialisation.


(** X2.  What [init_gcs_client] leaves in the globals: nothing changes when
    no bucket name is configured or the client constructor raises; when
    [Client.bucket] raises the client global is replaced and the bucket
    global keeps its old value; otherwise both globals are the new handles,
    whatever the existence check does. *)
Theorem init_globals_after (cfg : Config) (w : World) (g : Globals) :
  globals_of (run (init_gcs_client cfg) w g)
  = if negb (truthy (GCS_BUCKET_NAME cfg)) then g
    else match Client_new w (configured_project cfg) with
         | Some _ => g
         | None =>
             match Client_bucket w (configured_client cfg) (GCS_BUCKET_NAME cfg) with
             | Some _ => {| _storage_client := Some (configured_client cfg);
                            _bucket := _bucket g |}
             | None => {| _storage_client := Some (configured_client cfg);
                          _bucket := Some (configured_bucket cfg) |}
             end
         end.
Proof.
  init_cases cfg w g.
  - rewrite E. reflexivity.
  - apply String.eqb_neq in E. unfold truthy. rewrite E. cbn [negb].
    destruct (Client_new w _) as [[m|m|m]|]; [reflexivity..|].
    destruct (Client_bucket w _ _) as [[m|m|m]|]; [reflexivity..|].
    destruct (Bucket_exists w _) as [[|]|[m|m|m]]; reflexivity.
Qed.

Lemma exec_globals_configured cfg i g :
  globals_configured cfg g -> globals_configured cfg (exec cfg i g).
Proof.
  intros Hg. destruct i as [w|w|w|w d f ct|w n|w n]; simpl exec.
  - destruct Hg as [Hc Hb]. init_cases cfg w g; [split; assumption|].
    destruct (Client_new w _) as [[m|m|m]|]; [split; assumption..|].
    assert (Hset : forall ob,
               globals_configured cfg
                 {| _storage_client := Some (configured_client cfg);
                    _bucket := ob |}
               <-> (forall b, ob = Some b -> b = configured_bucket cfg)).
    { intros ob. unfold globals_configured. cbn [_storage_client _bucket].
      split.
      - intros [_ H] b Hob. now apply H.
      - intros H. split.
        + intros c Hc'. now injection Hc' as <-.
        + intros b Hob. split; [now apply H | reflexivity]. }
    destruct (Client_bucket w _ _) as [[m|m|m]|];
      [(apply (Hset (_bucket g)); intros b H; now apply Hb)..|].
    assert (Hnew : globals_configured cfg
                     {| _storage_client := Some (configured_client cfg);
                        _bucket := Some (configured_bucket cfg) |}).
    { apply Hset. intros b H. now injection H as <-. }
    destruct (Bucket_exists w _) as [[|]|[m|m|m]]; exact Hnew.
  - exact Hg.
  - exact Hg.
  - now rewrite upload_globals.
  - now rewrite delete_globals.
  - exact Hg.
Qed.

(** X3.  In every state the module can reach, a client global that is set
    is the client built from the configured project, a bucket global that
    is set is the handle on the configured bucket made from that client,
    and the bucket is never set while the client is not. *)
Theorem reachable_globals_configured (cfg : Config) (g : Globals) :
  reachable cfg g -> globals_configured cfg g.
Proof.
  intros [calls ->].
  assert (H : forall g0, globals_configured cfg g0 ->
                         globals_configured cfg (exec_all cfg calls g0)).
  { induction calls as [|i calls IH]; intros g0 Hg0; simpl; [exact Hg0|].
    apply IH, exec_globals_configured, Hg0. }
  apply H. split; intros x Hx; discriminate Hx.
Qed.

Lemma reachable_globals_configured_witness :
  reachable sample_config globals_ready
  /\ globals_configured sample_config globals_ready.
Proof.
  assert (R : reachable sample_config globals_ready)
    by (exists [Call_init world_absent]; reflexivity).
  split; [exact R | exact (reachable_globals_configured _ _ R)].
Defined.

(** X4.  [init_gcs_client] keeps nothing from earlier calls: its result and
    what it does to the outside are the same from any two states, and a
    second call in the same world leaves the globals the first one left. *)
Theorem init_forgets_state (cfg : Config) (w : World) (g1 g2 : Globals) :
  outcome_of (run (init_gcs_client cfg) w g1)
  = outcome_of (run (init_gcs_client cfg) w g2)
  /\ trace_of (run (init_gcs_client cfg) w g1)
     = trace_of (run (init_gcs_client cfg) w g2)
  /\ globals_of (run (init_gcs_client cfg) w
                     (globals_of (run (init_gcs_client cfg) w g1)))
     = globals_of (run (init_gcs_client cfg) w g1).
Proof.
  split; [|split].
  - destruct (string_dec (GCS_BUCKET_NAME cfg) "") as [E|E].
    + now rewrite !(init_run_empty cfg w _ E).
    + rewrite !(init_run_nonempty cfg w _ E). cbv zeta.
      destruct (Client_new w _) as [[m|m|m]|]; [reflexivity..|].
      destruct (Client_bucket w _ _) as [[m|m|m]|]; [reflexivity..|].
      destruct (Bucket_exists w _) as [[|]|[m|m|m]]; reflexivity.
  - destruct (string_dec (GCS_BUCKET_NAME cfg) "") as [E|E].
    + now rewrite !(init_run_empty cfg w _ E).
    + rewrite !(init_run_nonempty cfg w _ E). cbv zeta.
      destruct (Client_new w _) as [[m|m|m]|]; [reflexivity..|].
      destruct (Client_bucket w _ _) as [[m|m|m]|]; [reflexivity..|].
      destruct (Bucket_exists w _) as [[|]|[m|m|m]]; reflexivity.
  - destruct (string_dec (GCS_BUCKET_NAME cfg) "") as [E|E].
    + now rewrite !(init_run_empty cfg w _ E).
    + rewrite !(init_run_nonempty cfg w _ E). cbv zeta.
      destruct (Client_new w _) as [[m|m|m]|]; [reflexivity..|].
      destruct (Client_bucket w _ _) as [[m|m|m]|]; [reflexivity..|].
      destruct (Bucket_exists w _) as [[|]|[m|m|m]]; reflexivity.
Qed.

(** X5.  Whenever [init_gcs_client] constructs a client, the project it
    passes is the configured project identifier, and an empty identifier is
    passed as [None], never as the empty string. *)
Theorem init_project_argument (cfg : Config) (w : World) (g : Globals)
        (project : option string) :
  In (E_Client project) (trace_of (run (init_gcs_client cfg) w g)) ->
  project = configured_project cfg /\ project <> Some "".
Proof.
  assert (Hne : configured_project cfg <> Some "").
  { unfold configured_project, truthy.
    destruct (String.eqb_spec (GCS_PROJECT_ID cfg) "") as [E|E]; cbn [negb].
    - discriminate.
    - intros H. injection H as H. contradiction. }
  init_cases cfg w g.
  - cbn [trace_of snd In]. intros [H|[]]. discriminate H.
  - assert (Hin : forall tr : list event,
               (forall e, In e tr -> forall p, e <> E_Client p) ->
               In (E_Client project) (E_Client (configured_project cfg) :: tr) ->
               project = configured_project cfg /\ project <> Some "").
    { intros tr Htr [H|H].
      - injection H as <-. now split.
      - exfalso. exact (Htr _ H project eq_refl). }
    destruct (Client_new w _) as [[m|m|m]|];
      [| | |destruct (Client_bucket w _ _) as [[m|m|m]|];
            [| | |destruct (Bucket_exists w _) as [[|]|[m|m|m]]]];
      cbn [trace_of snd app]; apply Hin; cbn [In];
      intros e0 H p; repeat destruct H as [H|H]; try contradiction;
      subst e0; discriminate.
Qed.

Lemma init_project_argument_witness :
  In (E_Client None)
     (trace_of (run (init_gcs_client sample_config) world_ok initial_globals))
  /\ None = configured_project sample_config.
Proof.
  assert (H : In (E_Client None)
                 (trace_of (run (init_gcs_client sample_config) world_ok
                                initial_globals)))
    by (left; reflexivity).
  split; [exact H|].
  exact (proj1 (init_project_argument sample_config world_ok initial_globals
                  None H)).
Defined.

End Initialisation.

Section Transfers.

(** X6.  With the bucket set, an upload makes two calls into the SDK and no
    other: it makes a blob of the bucket in the globals for the generated
    name, and writes to it the payload and the content type it was given,
    unchanged.  It constructs no client, checks no existence and deletes
    nothing. *)
Theorem upload_provider_calls
        (w : World) (g : Globals) (b : Bucket) (file_data : list Byte.byte)
        (filename content_type : string) :
  _bucket g = Some b ->
  provider_calls
    (trace_of (run (upload_hero_image file_data filename content_type) w g))
  = [E_blob b (generated_object_name w filename);
     E_upload_from_string
       {| blob_bucket := b; blob_name := generated_object_name w filename |}
       file_data content_type].
Proof.
  intros H. rewrite (upload_run_set w g b file_data filename content_type H).
  cbv zeta.
  destruct (Blob_upload_from_string w _ file_data content_type) as [[m|m|m]|]; reflexivity.
Qed.

Lemma upload_provider_calls_witness :
  _bucket globals_ready = Some sample_bucket
  /\ List.length
       (provider_calls
          (trace_of (run (upload_hero_image [] "a.png" "image/png")
                         world_down globals_ready)))
     = 2%nat.
Proof.
  split; [reflexivity|].
  rewrite (upload_provider_calls world_down globals_ready sample_bucket []
             "a.png" "image/png" eq_refl).
  reflexivity.
Defined.

(** X7.  With the bucket set, a delete makes two calls into the SDK and no
    other: it makes a blob of the bucket in the globals for exactly the name
    it was given, whatever that name is, and deletes that blob. *)
Theorem delete_provider_calls
        (w : World) (g : Globals) (b : Bucket) (object_name : string) :
  _bucket g = Some b ->
  provider_calls (trace_of (run (delete_hero_image object_name) w g))
  = [E_blob b object_name;
     E_delete {| blob_bucket := b; blob_name := object_name |}].
Proof.
  intros H. rewrite (delete_run_set w g b object_name H). cbv zeta.
  destruct (Blob_delete w _) as [[m|m|m]|]; reflexivity.
Qed.

Lemma delete_provider_calls_witness :
  _bucket globals_ready = Some sample_bucket
  /\ provider_calls
       (trace_of (run (delete_hero_image "other/folder.txt")
                      world_absent globals_ready))
     = [E_blob sample_bucket "other/folder.txt";
        E_delete {| blob_bucket := sample_bucket;
                    blob_name := "other/folder.txt" |}].
Proof.
  split; [reflexivity|].
  exact (delete_provider_calls world_absent globals_ready sample_bucket
           "other/folder.txt" eq_refl).
Defined.

(** What a successful upload tells about the call. *)
Lemma upload_true_inv w g d f ct name url :
  outcome_of (run (upload_hero_image d f ct) w g) = Returns (true, name, url) ->
  exists b,
    _bucket g = Some b
    /\ name = generated_object_name w f
    /\ url = Blob_public_url {| blob_bucket := b; blob_name := name |}
    /\ Blob_upload_from_string w {| blob_bucket := b; blob_name := name |} d ct
       = None.
Proof.
  destruct (_bucket g) as [b|] eqn:Hb.
  - rewrite (upload_run_set w g b d f ct Hb). cbv zeta.
    destruct (Blob_upload_from_string w _ d ct) as [[m|m|m]|] eqn:Hw;
      unfold outcome_of; simpl fst; intros E; try discriminate E.
    injection E as <- <-. exists b. now repeat split.
  - rewrite (upload_run_unset w g d f ct Hb).
    unfold outcome_of. simpl fst. intros E. discriminate E.
Qed.

(** X8.  The three components of what [upload_hero_image] returns go
    together: with [False] come an empty name and an empty URL, with [True]
    a name and a URL that are not empty.  The only calls that return
    nothing are those an exception that is not an instance of [Exception]
    passes through. *)
Theorem upload_result_consistent
        (w : World) (g : Globals) (file_data : list Byte.byte)
        (filename content_type : string) :
  (exists ok name url,
      outcome_of (run (upload_hero_image file_data filename content_type) w g)
      = Returns (ok, name, url)
      /\ (ok = false -> name = "" /\ url = "")
      /\ (ok = true -> name <> "" /\ url <> ""))
  \/ (exists e,
         isinstance e cls_Exception = false
         /\ outcome_of
              (run (upload_hero_image file_data filename content_type) w g)
            = Raises e).
Proof.
  assert (Hfail : forall tr,
             exists ok name url,
               outcome_of (Returns (false, "", ""), g, tr) = Returns (ok, name, url)
               /\ (ok = false -> name = "" /\ url = "")
               /\ (ok = true -> name <> "" /\ url <> "")).
  { intros tr. exists false, "", "". split; [reflexivity|].
    split; [auto | intros H; discriminate H]. }
  destruct (_bucket g) as [b|] eqn:Hb.
  - rewrite (upload_run_set w g b file_data filename content_type Hb).
    cbv zeta.
    destruct (Blob_upload_from_string w _ file_data content_type) as [[m|m|m]|].
    + left. apply Hfail.
    + left. apply Hfail.
    + right. eexists. split; [|reflexivity]. reflexivity.
    + left. eexists true, _, _. split; [reflexivity|].
      split; [intros H; discriminate H|]. intros _. split.
      * rewrite generated_object_name_shape. discriminate.
      * unfold Blob_public_url, storage_base_url. discriminate.
  - rewrite (upload_run_unset w g file_data filename content_type Hb).
    left. apply Hfail.
Qed.


(** X10.  A successful upload can be undone with the name it returns: in
    the same state, [delete_hero_image] of that name deletes the very blob
    the upload wrote. *)
Theorem delete_targets_uploaded_blob
        (w w' : World) (g : Globals) (file_data : list Byte.byte)
        (filename content_type name url : string) :
  outcome_of (run (upload_hero_image file_data filename content_type) w g)
  = Returns (true, name, url) ->
  exists blob,
    blob_name blob = name
    /\ In (E_upload_from_string blob file_data content_type)
          (trace_of (run (upload_hero_image file_data filename content_type) w g))
    /\ In (E_delete blob) (trace_of (run (delete_hero_image name) w' g)).
Proof.
  intros H.
  destruct (upload_true_inv w g file_data filename content_type name url H)
    as [b [Hb [Hname [_ Hw]]]].
  exists {| blob_bucket := b; blob_name := name |}.
  split; [reflexivity|]. split.
  - rewrite (upload_run_set w g b file_data filename content_type Hb).
    cbv zeta. rewrite <- Hname, Hw. cbn [trace_of snd In]. auto.
  - rewrite (delete_run_set w' g b name Hb). cbv zeta.
    destruct (Blob_delete w' _) as [[m|m|m]|]; cbn [trace_of snd In]; auto.
Qed.

Lemma delete_targets_uploaded_blob_witness :
  exists blob,
    blob_name blob = generated_object_name world_ok "a.png"
    /\ In (E_delete blob)
          (trace_of (run (delete_hero_image (generated_object_name world_ok "a.png"))
                         world_absent globals_ready)).
Proof.
  destruct (delete_targets_uploaded_blob world_ok world_absent globals_ready []
              "a.png" "image/png" (generated_object_name world_ok "a.png")
              (Blob_public_url
                 {| blob_bucket := sample_bucket;
                    blob_name := generated_object_name world_ok "a.png" |})
              eq_refl) as [blob [Hn [_ Hd]]].
  exists blob. split; [exact Hn | exact Hd].
Defined.

(** X11.  In every state the module can reach, the URL a successful upload
    returns is the one [get_public_url] gives for the returned name.  (The
    upload takes its URL from the [public_url] of the SDK's blob, modelled
    after the spec's pattern.) *)
Theorem upload_url_is_get_public_url
        (cfg : Config) (w w' : World) (g g' : Globals)
        (file_data : list Byte.byte) (filename content_type name url : string) :
  reachable cfg g ->
  outcome_of (run (upload_hero_image file_data filename content_type) w g)
  = Returns (true, name, url) ->
  outcome_of (run (get_public_url cfg name) w' g') = Returns url.
Proof.
  intros Hreach H.
  destruct (upload_true_inv w g file_data filename content_type name url H)
    as [b [Hb [Hname [Hurl _]]]].
  rewrite Hurl, Hname, public_url_of_generated.
  rewrite (reachable_bucket_configured cfg g Hreach b Hb).
  reflexivity.
Qed.

Lemma upload_url_is_get_public_url_witness :
  reachable sample_config globals_ready
  /\ outcome_of
       (run (get_public_url sample_config (generated_object_name world_ok "a.png"))
            world_down initial_globals)
     = Returns (Blob_public_url
                  {| blob_bucket := sample_bucket;
                     blob_name := generated_object_name world_ok "a.png" |}).
Proof.
  assert (R : reachable sample_config globals_ready)
    by (exists [Call_init world_ok]; reflexivity).
  split; [exact R|].
  exact (upload_url_is_get_public_url sample_config world_ok world_down
           globals_ready initial_globals [] "a.png" "image/png" _ _ R eq_refl).
Defined.

(** X12.  [get_bucket] tells whether the module will talk to the provider:
    it returns a handle exactly when an upload, and exactly when a delete,
    in that state makes a call into the SDK. *)
Theorem get_bucket_tells_readiness
        (w w' : World) (g : Globals) (file_data : list Byte.byte)
        (filename content_type object_name : string) :
  ((exists b, outcome_of (run get_bucket w g) = Returns (Some b))
   <-> provider_calls
         (trace_of (run (upload_hero_image file_data filename content_type) w' g))
       <> [])
  /\ ((exists b, outcome_of (run get_bucket w g) = Returns (Some b))
      <-> provider_calls (trace_of (run (delete_hero_image object_name) w' g))
          <> []).
Proof.
  assert (Hget : outcome_of (run get_bucket w g) = Returns (_bucket g))
    by reflexivity.
  rewrite Hget.
  destruct (_bucket g) as [b|] eqn:Hb.
  - rewrite (upload_run_set w' g b file_data filename content_type Hb).
    rewrite (delete_run_set w' g b object_name Hb). cbv zeta.
    split; (split; [|intros _; now exists b]); intros _.
    + destruct (Blob_upload_from_string w' _ file_data content_type) as [[m|m|m]|];
        intros H; discriminate H.
    + destruct (Blob_delete w' _) as [[m|m|m]|]; intros H; discriminate H.
  - rewrite (upload_run_unset w' g file_data filename content_type Hb).
    rewrite (delete_run_unset w' g object_name Hb).
    split; (split; [intros [b H]; discriminate H | intros H; now contradiction H]).
Qed.

End Transfers.

Section Names.

Lemma append_cancel_l (a b c : string) : a ++ b = a ++ c -> b = c.
Proof.
  induction a as [|x a IH]; cbn [append]; intros H; [exact H|].
  injection H as H. now apply IH.
Qed.

Lemma append_inj_length (a b c d : string) :
  String.length a = String.length c -> a ++ b = c ++ d -> a = c /\ b = d.
Proof.
  revert c. induction a as [|x a IH]; intros [|y c] Hl H;
    cbn [String.length] in Hl; try discriminate Hl.
  - now split.
  - cbn [append] in H. injection H as Hx H. subst y.
    injection Hl as Hl.
    destruct (IH c Hl H) as [Hac Hbd]. subst c d. now split.
Qed.

Lemma contains_app c (a b : string) :
  contains c (a ++ b) = contains c a || contains c b.
Proof.
  induction a as [|x a IH]; cbn [append contains]; [reflexivity|].
  now rewrite IH, orb_assoc.
Qed.

Lemma all_hex_no_slash (s : string) :
  Py.all_chars Py.is_hex_digit s = true -> contains "/"%char s = false.
Proof.
  induction s as [|c s IH]; cbn [Py.all_chars contains]; [reflexivity|].
  intros H. apply andb_true_iff in H. destruct H as [Hc Hs].
  rewrite (IH Hs), orb_false_r.
  destruct (Ascii.eqb_spec c "/"%char) as [->|_]; [discriminate Hc|reflexivity].
Qed.

Lemma allowed_extension_shape ext :
  str_in ext ALLOWED_EXTENSIONS = true ->
  contains "/"%char ext = false /\ (4 <= String.length ext <= 5)%nat.
Proof.
  intros H.
  destruct (str_in_allowed ext H) as [-> | [-> | [-> | ->]]];
    (split; [reflexivity | cbn [String.length]; lia]).
Qed.

Lemma separator_free_parts token ext :
  String.length token = 32%nat ->
  Py.all_chars Py.is_hex_digit token = true ->
  str_in ext ALLOWED_EXTENSIONS = true ->
  contains "/"%char (token ++ ext) = false
  /\ (36 <= String.length (token ++ ext) <= 37)%nat.
Proof.
  intros Hl Hh He. destruct (allowed_extension_shape ext He) as [Hs Hn].
  rewrite contains_app, (all_hex_no_slash token Hh), Hs, length_app, Hl.
  split; [reflexivity | lia].
Qed.

(** X13.  Whatever the file name given to an upload (with directories,
    with "..", of any length), the object name generated for it is
    "hero_images/" followed by 36 or 37 characters none of which is "/":
    the object always lies directly in the folder. *)
Theorem generated_name_stays_in_folder (w : World) (filename : string) :
  exists rest,
    generated_object_name w filename = "hero_images/" ++ rest
    /\ contains "/"%char rest = false
    /\ (36 <= String.length rest <= 37)%nat.
Proof.
  exists (Py.uuid4_hex (os_urandom w 16) ++ chosen_extension filename).
  split; [apply generated_object_name_shape|].
  apply separator_free_parts.
  - apply uuid4_hex_length.
  - apply uuid4_hex_all_hex.
  - apply chosen_extension_allowed.
Qed.

Lemma hex_val_from_zeros k : hex_val_from 0 (Py.repeat_char "0"%char k) = 0.
Proof. induction k as [|k IH]; [reflexivity | exact IH]. Qed.

Lemma format_032x_value n : 0 <= n -> hex_val (Py.format_032x n) = n.
Proof.
  intros Hn. unfold Py.format_032x, Py.zfill, hex_val.
  rewrite hex_val_from_app, hex_val_from_zeros. now apply format_x_value.
Qed.

(** A bit of [a * 2^lo] outside the field [lo .. hi-1] is clear. *)
Lemma field_bit a lo hi m :
  0 <= lo <= hi -> 0 <= a < 2 ^ (hi - lo) -> m < lo \/ hi <= m ->
  Z.testbit (a * 2 ^ lo) m = false.
Proof.
  intros Hlo Ha [Hm|Hm].
  - destruct (Z_lt_le_dec m 0) as [Hneg|Hpos]; [now apply Z.testbit_neg_r|].
    apply Z.mul_pow2_bits_low. lia.
  - destruct (Z.eq_dec a 0) as [->|Hz]; [apply Z.testbit_0_l|].
    assert (Hp : 0 < 2 ^ lo) by (apply Z.pow_pos_nonneg; lia).
    apply Z.bits_above_log2; [nia|].
    assert (Hlt : a * 2 ^ lo < 2 ^ hi).
    { replace hi with ((hi - lo) + lo) by lia.
      rewrite Z.pow_add_r by lia. nia. }
    assert (Z.log2 (a * 2 ^ lo) < hi) by (apply Z.log2_lt_pow2; nia). lia.
Qed.

(** [uuid.UUID] leaves the random bits of its input as they are. *)
Lemma UUID_int_random_bit bs n :
  is_random_bit n = true ->
  Z.testbit (Py.UUID_int bs 4) n = Z.testbit (Py.int_from_bytes bs) n.
Proof.
  unfold is_random_bit. rewrite !andb_true_iff, negb_true_iff, !orb_false_iff.
  rewrite Z.leb_le, Z.ltb_lt, !Z.eqb_neq, andb_false_iff, Z.leb_gt, Z.leb_gt.
  intros [[H0 H1] [[H62 H63] Hv]].
  unfold Py.UUID_int. cbv zeta.
  rewrite Z.lor_spec, Z.land_spec, Z.lor_spec, Z.land_spec.
  rewrite !Z.lnot_spec by lia. rewrite !Z.shiftl_spec by lia.
  change 49152 with (3 * 2 ^ 14). change 32768 with (1 * 2 ^ 15).
  change 61440 with (15 * 2 ^ 12). change 4 with (1 * 2 ^ 2) at 1.
  rewrite (field_bit 3 14 16), (field_bit 1 15 16), (field_bit 15 12 16),
    (field_bit 1 2 3) by lia.
  cbn [negb]. now rewrite !andb_true_r, !orb_false_r.
Qed.

(** The token of a name writes the UUID it was made from. *)
Lemma uuid4_hex_value w :
  hex_val (Py.uuid4_hex (os_urandom w 16)) = Py.UUID_int (os_urandom w 16) 4.
Proof.
  unfold Py.uuid4_hex. apply format_032x_value.
  apply UUID_int_range, int_from_bytes_range, length_os_urandom.
Qed.

(** X14.  Two generated names are different as soon as the random bytes
    behind them differ in one of the 122 bits a version-4 UUID takes from
    them, whatever the two file names are: nothing of the random input is
    lost on the way to the name. *)
Theorem names_differ_when_random_bits_differ
        (w1 w2 : World) (filename1 filename2 : string) (n : Z) :
  is_random_bit n = true ->
  Z.testbit (random_int w1) n <> Z.testbit (random_int w2) n ->
  generated_object_name w1 filename1 <> generated_object_name w2 filename2.
Proof.
  intros Hn Hd E. apply Hd. unfold random_int.
  rewrite <- !(UUID_int_random_bit _ n Hn), <- !uuid4_hex_value.
  rewrite !generated_object_name_shape in E.
  apply append_cancel_l in E.
  apply append_inj_length in E; [|now rewrite !uuid4_hex_length].
  destruct E as [E _]. now rewrite E.
Qed.

Lemma names_differ_when_random_bits_differ_witness :
  is_random_bit 0 = true
  /\ Z.testbit (random_int world_ok) 0 <> Z.testbit (random_int world_zero) 0
  /\ generated_object_name world_ok "a.png"
     <> generated_object_name world_zero "a.png".
Proof.
  assert (Hd : Z.testbit (random_int world_ok) 0
               <> Z.testbit (random_int world_zero) 0)
    by (vm_compute; discriminate).
  split; [reflexivity|]. split; [exact Hd|].
  exact (names_differ_when_random_bits_differ world_ok world_zero
           "a.png" "a.png" 0 eq_refl Hd).
Defined.

End Names.

Section Extensions.

(** [str.lower] neither makes nor removes a "." or a "/". *)
Lemma lower_char_keeps_marks c d :
  d = "."%char \/ d = "/"%char ->
  Ascii.eqb (Py.lower_char c) d = Ascii.eqb c d.
Proof.
  intros [->| ->];
    destruct c as [[] [] [] [] [] [] [] []]; vm_compute; reflexivity.
Qed.

Lemma lower_char_idempotent c :
  Py.lower_char (Py.lower_char c) = Py.lower_char c.
Proof. destruct c as [[] [] [] [] [] [] [] []]; vm_compute; reflexivity. Qed.

Lemma lower_idempotent (s : string) : Py.lower (Py.lower s) = Py.lower s.
Proof.
  induction s as [|c s IH]; cbn [Py.lower]; [reflexivity|].
  now rewrite lower_char_idempotent, IH.
Qed.

Lemma length_lower (s : string) : String.length (Py.lower s) = String.length s.
Proof. induction s as [|c s IH]; cbn [Py.lower String.length]; congruence. Qed.

Lemma lower_substring (s : string) : forall n m,
  Py.lower (substring n m s) = substring n m (Py.lower s).
Proof.
  induction s as [|c s IH]; intros [|n] [|m]; cbn [substring Py.lower];
    try reflexivity; try apply IH.
  now rewrite IH.
Qed.

Lemma rfind_from_lower d (s : string) : forall i last,
  d = "."%char \/ d = "/"%char ->
  Py.rfind_from d (Py.lower s) i last = Py.rfind_from d s i last.
Proof.
  induction s as [|c s IH]; intros i last Hd; cbn [Py.lower Py.rfind_from];
    [reflexivity|].
  now rewrite (lower_char_keeps_marks c d Hd), IH.
Qed.

Lemma eqb_lower_dot (x : string) :
  String.eqb (Py.lower x) "." = String.eqb x ".".
Proof.
  destruct x as [|c [|c' x]]; cbn [Py.lower String.eqb]; [reflexivity| |].
  - now rewrite (lower_char_keeps_marks c "."%char) by now left.
  - now rewrite (lower_char_keeps_marks c "."%char) by now left.
Qed.

Lemma skip_leading_dots_lower p dotIndex n : forall filenameIndex,
  Py.skip_leading_dots (Py.lower p) "."%char dotIndex n filenameIndex
  = (Py.lower (fst (Py.skip_leading_dots p "."%char dotIndex n filenameIndex)),
     Py.lower (snd (Py.skip_leading_dots p "."%char dotIndex n filenameIndex))).
Proof.
  induction n as [|n IH]; intros filenameIndex; cbn [Py.skip_leading_dots].
  - unfold Py.slice_to. cbn [fst snd]. now rewrite lower_substring.
  - unfold Py.slice1 at 1. rewrite <- lower_substring, eqb_lower_dot.
    fold (Py.slice1 p filenameIndex).
    destruct (negb (String.eqb (Py.slice1 p filenameIndex) ".")).
    + unfold Py.slice_to, Py.slice_from. cbn [fst snd].
      now rewrite !lower_substring, length_lower.
    + apply IH.
Qed.

Lemma splitext_lower (p : string) :
  Py.splitext (Py.lower p)
  = (Py.lower (fst (Py.splitext p)), Py.lower (snd (Py.splitext p))).
Proof.
  unfold Py.splitext, Py._splitext, Py.rfind.
  rewrite !rfind_from_lower by auto.
  destruct (Py.rfind_from "/"%char p 0 (-1) <? Py.rfind_from "."%char p 0 (-1)).
  - apply skip_leading_dots_lower.
  - unfold Py.slice_to. cbn [fst snd]. now rewrite lower_substring.
Qed.

(** X15.  The case of the letters of a file name never matters for the
    extension an upload chooses: the file name in lower case gets the same
    extension (so "A.PNG" and "a.png" both get ".png"). *)
Theorem chosen_extension_ignores_case (filename : string) :
  chosen_extension (Py.lower filename) = chosen_extension filename.
Proof.
  unfold chosen_extension. cbv zeta.
  rewrite splitext_lower. cbn [snd]. now rewrite lower_idempotent.
Qed.

(** X16.  For a file name of the usual shape, a stem that does not start
    with "." and has no "." or "/" further on, then "." and an extension
    without "." and "/", the chosen extension is "." and that extension in
    lower case when this is one of .jpg, .jpeg, .png, .webp, and ".jpg"
    otherwise. *)
Theorem chosen_extension_of_plain_name (c : ascii) (stem ext : string) :
  c <> "."%char -> c <> "/"%char ->
  contains "."%char stem = false -> contains "/"%char stem = false ->
  contains "."%char ext = false -> contains "/"%char ext = false ->
  chosen_extension (String c stem ++ String "."%char ext)
  = if str_in (String "."%char (Py.lower ext)) ALLOWED_EXTENSIONS
    then String "."%char (Py.lower ext)
    else ".jpg".
Proof.
  intros Hc1 Hc2 Hs1 Hs2 He1 He2. unfold chosen_extension. cbv zeta.
  rewrite (splitext_plain c stem ext Hc1 Hc2 Hs1 Hs2 He1 He2).
  cbn [snd Py.lower].
  change (Py.lower_char "."%char) with "."%char.
  now destruct (str_in (String "."%char (Py.lower ext)) ALLOWED_EXTENSIONS).
Qed.

Lemma chosen_extension_of_plain_name_witness :
  chosen_extension "Holiday.JPEG" = ".jpeg".
Proof.
  exact (chosen_extension_of_plain_name "H"%char "oliday" "JPEG"
           ltac:(discriminate) ltac:(discriminate)
           eq_refl eq_refl eq_refl eq_refl).
Defined.

Lemma rfind_from_bound c (s : string) : forall i last,
  last < i ->
  Py.rfind_from c s i last < i + Z.of_nat (String.length s).
Proof.
  induction s as [|x s IH]; intros i last H; cbn [Py.rfind_from String.length].
  - lia.
  - rewrite Nat2Z.inj_succ.
    destruct (Ascii.eqb x c);
      [pose proof (IH (i + 1) i ltac:(lia)) | pose proof (IH (i + 1) last ltac:(lia))];
      lia.
Qed.

Lemma substring_0_0 (s : string) : substring 0 0 s = "".
Proof. now destruct s. Qed.

(** X17.  A dot in a directory part of the file name is no extension: when
    the part after the last "/" has no ".", the upload chooses ".jpg",
    whatever stands before that "/" (so "photos.png/readme" gets ".jpg"). *)
Theorem chosen_extension_ignores_directory_dots (dir base : string) :
  contains "."%char base = false -> contains "/"%char base = false ->
  chosen_extension (dir ++ String "/"%char base) = ".jpg".
Proof.
  intros Hd Hs. unfold chosen_extension, Py.splitext, Py._splitext, Py.rfind.
  cbv zeta. rewrite !rfind_from_app.
  cbn [Py.rfind_from]. rewrite Ascii.eqb_refl.
  change (Ascii.eqb "/"%char "."%char) with false. cbv iota.
  rewrite !rfind_from_absent by assumption.
  pose proof (rfind_from_bound "."%char dir 0 (-1) ltac:(lia)) as Hb.
  replace (0 + Z.of_nat (String.length dir) <? Py.rfind_from "."%char dir 0 (-1))
    with false by (symmetry; apply Z.ltb_ge; lia).
  unfold Py.slice_to. cbn [snd]. change (Z.to_nat 0) with 0%nat.
  rewrite substring_0_0. reflexivity.
Qed.

Lemma chosen_extension_ignores_directory_dots_witness :
  chosen_extension "photos.png/readme" = ".jpg".
Proof.
  exact (chosen_extension_ignores_directory_dots "photos.png" "readme"
           eq_refl eq_refl).
Defined.

End Extensions.

Section WholeModule.

(** A bucket global that is set was put there by an [init_gcs_client] that
    found a bucket name. *)
Lemma exec_bucket_named cfg i g :
  (forall b, _bucket g = Some b ->
             b = configured_bucket cfg /\ GCS_BUCKET_NAME cfg <> "") ->
  forall b, _bucket (exec cfg i g) = Some b ->
            b = configured_bucket cfg /\ GCS_BUCKET_NAME cfg <> "".
Proof.
  intros Hg. destruct i as [w|w|w|w d f ct|w n|w n]; simpl exec.
  - init_cases cfg w g; [exact Hg|].
    destruct (Client_new w _) as [[m|m|m]|]; [exact Hg..|].
    destruct (Client_bucket w _ _) as [[m|m|m]|]; [exact Hg..|].
    destruct (Bucket_exists w _) as [[|]|[m|m|m]];
      intros b H; injection H as <-; now split.
  - exact Hg.
  - exact Hg.
  - now rewrite upload_globals.
  - now rewrite delete_globals.
  - exact Hg.
Qed.

Lemma reachable_bucket_named cfg g :
  reachable cfg g ->
  forall b, _bucket g = Some b ->
            b = configured_bucket cfg /\ GCS_BUCKET_NAME cfg <> "".
Proof.
  intros [calls ->].
  assert (H : forall g0,
             (forall b, _bucket g0 = Some b ->
                        b = configured_bucket cfg /\ GCS_BUCKET_NAME cfg <> "") ->
             forall b, _bucket (exec_all cfg calls g0) = Some b ->
                       b = configured_bucket cfg /\ GCS_BUCKET_NAME cfg <> "").
  { induction calls as [|i calls IH]; intros g0 Hg0; simpl; [exact Hg0|].
    apply IH, exec_bucket_named, Hg0. }
  apply H. intros b Hb. discriminate Hb.
Qed.

(** X18.  In every state the module can reach, each write and each delete
    that goes to the provider goes to a blob of the configured bucket, and
    that bucket has a name: the module never touches another bucket, and
    never one with an empty name. *)
Theorem transfers_use_configured_bucket
        (cfg : Config) (w : World) (g : Globals) (file_data data : list Byte.byte)
        (filename content_type ct object_name : string) (blob : Blob) :
  reachable cfg g ->
  In (E_upload_from_string blob data ct)
     (trace_of (run (upload_hero_image file_data filename content_type) w g))
  \/ In (E_delete blob) (trace_of (run (delete_hero_image object_name) w g)) ->
  blob_bucket blob = configured_bucket cfg /\ GCS_BUCKET_NAME cfg <> "".
Proof.
  intros R H. pose proof (reachable_bucket_named cfg g R) as Hinv.
  destruct (_bucket g) as [b|] eqn:Hb.
  - destruct (Hinv b eq_refl) as [-> Hname].
    destruct H as [H|H].
    + rewrite (upload_run_set w g _ file_data filename content_type Hb) in H.
      cbv zeta in H.
      destruct (Blob_upload_from_string w _ file_data content_type) as [[m|m|m]|];
        cbn [trace_of snd In] in H;
        repeat (destruct H as [H|H]; try discriminate H);
        try contradiction; injection H as <- _ _; now split.
    + rewrite (delete_run_set w g _ object_name Hb) in H. cbv zeta in H.
      destruct (Blob_delete w _) as [[m|m|m]|];
        cbn [trace_of snd In] in H;
        repeat (destruct H as [H|H]; try discriminate H);
        try contradiction; injection H as <-; now split.
  - destruct H as [H|H].
    + rewrite (upload_run_unset w g file_data filename content_type Hb) in H.
      cbn [trace_of snd In] in H.
      repeat (destruct H as [H|H]; try discriminate H); contradiction.
    + rewrite (delete_run_unset w g object_name Hb) in H.
      cbn [trace_of snd In] in H.
      repeat (destruct H as [H|H]; try discriminate H); contradiction.
Qed.

Lemma transfers_use_configured_bucket_witness :
  reachable sample_config globals_ready
  /\ In (E_delete {| blob_bucket := sample_bucket; blob_name := "x" |})
        (trace_of (run (delete_hero_image "x") world_ok globals_ready))
  /\ sample_bucket = configured_bucket sample_config.
Proof.
  assert (R : reachable sample_config globals_ready)
    by (exists [Call_init world_ok]; reflexivity).
  assert (D : In (E_delete {| blob_bucket := sample_bucket; blob_name := "x" |})
                 (trace_of (run (delete_hero_image "x") world_ok globals_ready)))
    by (right; left; reflexivity).
  split; [exact R|]. split; [exact D|].
  exact (proj1 (transfers_use_configured_bucket sample_config world_ok
                  globals_ready [] [] "a.png" "image/png" "" "x"
                  {| blob_bucket := sample_bucket; blob_name := "x" |}
                  R (or_intror D))).
Defined.

(** X19.  After an [init_gcs_client] that returned [True], in whatever
    state it was called, [get_gcs_client] returns the client made for the
    configured project and [get_bucket] the handle on the configured
    bucket made from that client. *)
Theorem getters_after_successful_init
        (cfg : Config) (w w' : World) (g : Globals) :
  outcome_of (run (init_gcs_client cfg) w g) = Returns true ->
  outcome_of (run get_gcs_client w' (globals_of (run (init_gcs_client cfg) w g)))
  = Returns (Some (configured_client cfg))
  /\ outcome_of (run get_bucket w' (globals_of (run (init_gcs_client cfg) w g)))
     = Returns (Some (configured_bucket cfg)).
Proof.
  init_cases cfg w g; [intros H; discriminate H|].
  destruct (Client_new w _) as [[m|m|m]|]; [intros H; discriminate H..|].
  destruct (Client_bucket w _ _) as [[m|m|m]|]; [intros H; discriminate H..|].
  destruct (Bucket_exists w _) as [[|]|[m|m|m]]; intros H; try discriminate H.
  split; reflexivity.
Qed.

Lemma getters_after_successful_init_witness :
  outcome_of (run (init_gcs_client sample_config) world_ok initial_globals)
  = Returns true
  /\ outcome_of
       (run get_bucket world_down
            (globals_of (run (init_gcs_client sample_config) world_ok
                             initial_globals)))
     = Returns (Some sample_bucket).
Proof.
  split; [reflexivity|].
  exact (proj2 (getters_after_successful_init sample_config world_ok world_down
                  initial_globals eq_refl)).
Defined.

(** X20.  [get_public_url] gives two object names the same URL only when
    they are the same name, and the URL ends with the name exactly as it
    was given: nothing in it is escaped or normalised. *)
Theorem get_public_url_identifies_object
        (cfg : Config) (w : World) (g : Globals) (name1 name2 : string) :
  (outcome_of (run (get_public_url cfg name1) w g)
   = outcome_of (run (get_public_url cfg name2) w g)
   <-> name1 = name2)
  /\ exists url,
       outcome_of (run (get_public_url cfg name1) w g) = Returns url
       /\ endswith url name1 = true.
Proof.
  assert (Hrun : forall n,
             outcome_of (run (get_public_url cfg n) w g)
             = Returns (("https://storage.googleapis.com/"
                         ++ GCS_BUCKET_NAME cfg ++ "/") ++ n)).
  { intros n. rewrite append_assoc, append_assoc. reflexivity. }
  rewrite !Hrun. split.
  - split; [|now intros ->].
    intros H. injection H as H. now apply append_cancel_l in H.
  - eexists. split; [reflexivity | apply endswith_app].
Qed.

End WholeModule.
